(** * Line geometry, redundancy elimination and square reconstruction

    A shallow embedding of [line.py], [line_detection.py] and
    [square_detection.py].

    Numbers.  Python integers are [Z].  Python floats are idealised: a
    float obtained from integers by [+ - * /] is the exact rational ([Q]),
    and a float obtained through [math.sqrt], [math.atan], [math.acos],
    [math.sin] is the exact real ([R]).  [int(x)] truncates toward zero,
    [//] is the floor division of [Z].  A Python exception is a value of
    [exn] carried by [result]. *)

From Stdlib Require Import ZArith QArith Qreals Reals Zfloor Lra Lia Psatz.
From Stdlib Require Import List Bool String FunctionalExtensionality.
Import ListNotations.

Open Scope Z_scope.

(** ** Python exceptions *)

Inductive exn : Type :=
| ZeroDivisionError
| ValueError
| AttributeError
| IndexError
| TypeError
| Exception (msg : string)
| OutOfFuel.   (* not a Python exception: a loop bound of the model ran out *)

Inductive result (A : Type) : Type :=
| Ok (a : A)
| Raise (e : exn).

Arguments Ok {A} a.
Arguments Raise {A} e.

Definition bind {A B} (m : result A) (k : A -> result B) : result B :=
  match m with
  | Ok a => k a
  | Raise e => Raise e
  end.

Notation "x <- m ;; k" := (bind m (fun x => k))
  (at level 61, m at next level, right associativity).


(** ** Numbers *)

(** [int(x)] on a float: truncation toward zero. *)
Definition int (x : Q) : Z := Z.quot (Qnum x) (Zpos (Qden x)).

Definition Qlt_bool (x y : Q) : bool := negb (Qle_bool y x).

(** Truthiness of a float: non-zero. *)
Definition Qtruthy (x : Q) : bool := negb (Qeq_bool x 0).

Definition Rtruthy (x : R) : bool := if Req_dec_T x 0 then false else true.

Definition Rlt_bool (x y : R) : bool := if Rlt_dec x y then true else false.

(** Float division raises on a zero divisor. *)
Definition Rdivide (a b : R) : result R :=
  if Req_dec_T b 0 then Raise ZeroDivisionError else Ok (a / b)%R.

(** [math.acos] raises outside [-1, 1]. *)
Definition math_acos (x : R) : result R :=
  if Rle_dec (-1) x then
    if Rle_dec x 1 then Ok (acos x) else Raise ValueError
  else Raise ValueError.

(** [math.degrees]. *)
Definition math_degrees (x : R) : R := (x * (180 / PI))%R.


(** ** The [Line] class *)

Definition Point : Type := Z * Z.

Record Line : Type := mkLine {
  pts0 : Point;          (* self.pts[0] *)
  pts1 : Point;          (* self.pts[1] *)
  area : option Q
}.

(** [Line([a, b])] *)
Definition Line_ (a b : Point) : Line := mkLine a b None.

(** The class attributes [Line.verticalTolerance] and
    [Line.horizontalTolerance]: one mutable pair for the whole process. *)
Record LineClass : Type := mkLineClass {
  verticalTolerance : Q;
  horizontalTolerance : Q
}.

Definition LineClass_initial : LineClass := mkLineClass 1 1.

Module Line.

Definition slope (self : Line) : Q :=
  let '(x1, y1) := pts0 self in
  let '(x2, y2) := pts1 self in
  if x2 - x1 =? 0 then 100000%Q
  else (inject_Z (y2 - y1) / inject_Z (x2 - x1))%Q.

Definition isVertical (C : LineClass) (self : Line) : bool :=
  Qle_bool (verticalTolerance C) (slope self).

Definition isHorizontal (C : LineClass) (self : Line) : bool :=
  Qle_bool (slope self) (horizontalTolerance C).

(** [intercept(y=y)]: the branch taken when only [y] is supplied. *)
Definition intercept_y (self : Line) (y : Z) : bool * Z :=
  let '(x1, y1) := pts0 self in
  let '(x2, y2) := pts1 self in
  if y2 - y1 =? 0 then (false, 0)
  else (true,
        int (inject_Z ((x2 - x1) * (y - y2)) / inject_Z (y2 - y1)
             + inject_Z x2)%Q).

(** [intercept(x=x)]: the branch taken when only [x] is supplied. *)
Definition intercept_x (self : Line) (x : Z) : bool * Z :=
  let '(x1, y1) := pts0 self in
  let '(x2, y2) := pts1 self in
  if x2 - x1 =? 0 then (false, 0)
  else (true,
        int (inject_Z ((y2 - y1) * (x - x2)) / inject_Z (x2 - x1)
             + inject_Z y2)%Q).


Definition extend_horizontals (self : Line) (horizontals : Z * Z)
  : result Line :=
  let '(x1, y1) := pts0 self in
  let '(x2, y2) := pts1 self in
  let '(axis1, axis2) := horizontals in
  let '(axis1, axis2) :=
    if axis2 <? axis1 then (axis2, axis1) else (axis1, axis2) in
  if y1 =? y2 then
    Raise (Exception "Extend Error: Line is parallel to the axes")
  else if ((y1 =? axis1) && (y2 =? axis2)) || ((y1 =? axis2) && (y2 =? axis1))
  then Ok self
  else
    let '(x1, y1) := (snd (intercept_y self axis1), axis1) in
    let '(x2, y2) := (snd (intercept_y self axis2), axis2) in
    Ok (Line_ (x2, y2) (x1, y1)).

Definition extend_verticals (self : Line) (verticals : Z * Z)
  : result Line :=
  let '(x1, y1) := pts0 self in
  let '(x2, y2) := pts1 self in
  let '(axis1, axis2) := verticals in
  let '(axis1, axis2) :=
    if axis2 <? axis1 then (axis2, axis1) else (axis1, axis2) in
  if x1 =? x2 then
    Raise (Exception "Extend Error: Line is parallel to the axes")
  else if ((x1 =? axis1) && (x2 =? axis2)) || ((x1 =? axis2) && (x2 =? axis1))
  then Ok self
  else
    let '(x1, y1) := (axis1, snd (intercept_x self axis1)) in
    let '(x2, y2) := (axis2, snd (intercept_x self axis2)) in
    Ok (Line_ (x2, y2) (x1, y1)).

(** [extend(horizontals=None, verticals=None)].  A pair of axes is a
    two-element tuple, hence truthy: [horizontals and verticals] holds
    exactly when both are supplied. *)
Definition extend (C : LineClass) (self : Line)
    (horizontals verticals : option (Z * Z)) : result Line :=
  match horizontals, verticals with
  | Some _, Some _ =>
      Raise (Exception
        "Extend Error: Extending needs either horizontals or verticals not both")
  | Some h, None => extend_horizontals self h
  | None, Some v => extend_verticals self v
  | None, None =>
      if isHorizontal C self then extend_verticals self (0, 500)
      else extend_horizontals self (0, 500)
  end.

Definition mid (self : Line) : Point :=
  ((fst (pts1 self) + fst (pts0 self)) / 2,
   (snd (pts1 self) + snd (pts0 self)) / 2).

Definition length (self : Line) : R :=
  let '(x1, y1) := pts0 self in
  let '(x2, y2) := pts1 self in
  sqrt (IZR ((x2 - x1) ^ 2 + (y2 - y1) ^ 2)).

Definition angle (self : Line) (rad : bool) : R :=
  let '(x1, y1) := pts0 self in
  let '(x2, y2) := pts1 self in
  let absolute_angle := Rabs (atan (Q2R (slope self))) in
  let result :=
    if 0 <=? x2 - x1 then
      if 0 <=? y2 - y1 then absolute_angle
      else (2 * PI - absolute_angle)%R
    else
      if 0 <=? y2 - y1 then (PI - absolute_angle)%R
      else (PI + absolute_angle)%R in
  if rad then result else math_degrees result.

Definition split (self : Line) (end_ : Z) (ratio : Q)
  : result (Line * Line) :=
  if negb (Qlt_bool 0 ratio && Qlt_bool ratio 1) then
    Raise (Exception "Split Error: Ratio must be BETWEEN 0 and 1")
  else
    let '((x1, y1), (x2, y2)) :=
      if end_ =? 0 then (pts0 self, pts1 self)
      else (pts1 self, pts0 self) in
    let split_pt :=
      (int (inject_Z x1 + inject_Z (x2 - x1) * ratio)%Q,
       int (inject_Z y1 + inject_Z (y2 - y1) * ratio)%Q) in
    Ok (Line_ (pts0 self) split_pt, Line_ split_pt (pts1 self)).

(** [intersect]: [None] stands for the pair [(None, None)]. *)
Definition intersect (self line : Line) : bool * option Point :=
  let m1 := slope self in
  let b1 := snd (intercept_x self 0) in
  let m2 := slope line in
  let b2 := snd (intercept_x line 0) in
  if Qtruthy (m1 - m2) then
    let x := (inject_Z (b2 - b1) / (m1 - m2))%Q in
    let y := (m1 * x + inject_Z b1)%Q in
    (true, Some (int x, int y))
  else (false, None).

(** The argument of [perpDistance]: a tuple, a [Line], or anything else. *)
Inductive target : Type :=
| a_tuple (pt : Point)
| a_Line (l : Line)
| other.

Definition perpDistPoint (self : Line) (pt : Point) : result R :=
  let '(x, y) := pt in
  let l1 := length (Line_ (x, y) (pts0 self)) in
  let l2 := length (Line_ (x, y) (pts1 self)) in
  let l3 := length self in
  if negb (Rtruthy l1 && Rtruthy l3) then
    q <- Rdivide (l1 ^ 2 + l3 ^ 2 - l2 ^ 2) (2 * l1 * l3) ;;
    theta <- math_acos q ;;
    Ok (l1 * sin theta)%R
  else Ok 0%R.

Definition perpDistance (self : Line) (obj : target) : result R :=
  match obj with
  | a_tuple pt => perpDistPoint self pt
  | a_Line l => perpDistPoint self (mid l)
  | other => Raise (Exception "perpDistance Error: Invalid Parameter")
  end.

(** Truthiness of an optional integer argument: [None] and 0 are
    falsy. *)
Definition given_nonzero (a : option Z) : bool :=
  match a with
  | Some k => negb (k =? 0)
  | None => false
  end.

Definition mirror (self : Line) (x y : option Z) : Line :=
  let '(x1, y1) := pts0 self in
  let '(x2, y2) := pts1 self in
  let '(x1, x2) :=
    match x with
    | Some k =>
        if given_nonzero x then (x1 + 2 * (k - x1), x2 + 2 * (k - x2))
        else (x1, x2)
    | None => (x1, x2)
    end in
  let '(y1, y2) :=
    match y with
    | Some k =>
        if given_nonzero y then (y1 + 2 * (k - y1), y2 + 2 * (k - y2))
        else (y1, y2)
    | None => (y1, y2)
    end in
  Line_ (x1, y1) (x2, y2).

(** [linePassingBy(pt, slope, h)]: the division by a zero slope raises. *)
Definition linePassingBy (pt : Point) (slope : Q) (h : Z) : result Line :=
  let '(x, y) := pt in
  if Qeq_bool slope 0 then Raise ZeroDivisionError
  else
    let pt1 := (int (inject_Z x - inject_Z y / slope)%Q, 0) in
    let pt2 := (int (inject_Z x - inject_Z (y - h) / slope)%Q, h) in
    Ok (Line_ pt1 pt2).

End Line.

(** ** Line objects

    [Line] defines no [__eq__], so Python compares two lines by identity.
    A line object is a [Line] value together with the identity [oid] of
    the object that holds it; lines are never mutated after construction. *)

Record LineObj : Type := mkObj {
  oid : nat;
  obj :> Line
}.

Definition is_same (a b : LineObj) : bool := Nat.eqb (oid a) (oid b).

(** [list.remove(x)]: drops the first item that is [x]. *)
Fixpoint list_remove (x : LineObj) (l : list LineObj)
  : result (list LineObj) :=
  match l with
  | [] => Raise ValueError
  | y :: l' =>
      if is_same y x then Ok l'
      else l'' <- list_remove x l' ;; Ok (y :: l'')
  end.

(** ** The detectors *)

Record Detector : Type := mkDetector {
  minLength : Z;
  minLineDistance : Z;
  _verticals : list LineObj;
  _horizontals : list LineObj;
  squareCorners : list Point
}.

(** [SquareDetector.__init__]; the two line lists are attributes that
    [_eliminateRedundancies] creates. *)
Definition SquareDetector_init : Detector := mkDetector 50 20 [] [] [].

(** The mutable state a call can touch: the class attributes of [Line]
    and the detector object. *)
Record World : Type := mkWorld {
  LineC : LineClass;
  self : Detector
}.

Definition set_tolerances (h v : Q) (w : World) : World :=
  mkWorld (mkLineClass v h) (self w).

Definition set_verticals (l : list LineObj) (w : World) : World :=
  let d := self w in
  mkWorld (LineC w)
    (mkDetector (minLength d) (minLineDistance d) l (_horizontals d)
       (squareCorners d)).

Definition set_horizontals (l : list LineObj) (w : World) : World :=
  let d := self w in
  mkWorld (LineC w)
    (mkDetector (minLength d) (minLineDistance d) (_verticals d) l
       (squareCorners d)).

Definition set_squareCorners (c : list Point) (w : World) : World :=
  let d := self w in
  mkWorld (LineC w)
    (mkDetector (minLength d) (minLineDistance d) (_verticals d)
       (_horizontals d) c).

Module LineDetector.


(** [__filterVerticals]: [None] items are skipped by [if line and ...]. *)
Fixpoint filterVerticals (C : LineClass) (lines : list (option LineObj))
  : list LineObj :=
  match lines with
  | [] => []
  | Some line :: rest =>
      if Line.isVertical C line then line :: filterVerticals C rest
      else filterVerticals C rest
  | None :: rest => filterVerticals C rest
  end.

Fixpoint filterHorizontals (C : LineClass) (lines : list (option LineObj))
  : list LineObj :=
  match lines with
  | [] => []
  | Some line :: rest =>
      if Line.isHorizontal C line then line :: filterHorizontals C rest
      else filterHorizontals C rest
  | None :: rest => filterHorizontals C rest
  end.

(** The test of the deduplication loops:
    [abs(a.perpDistance(b)) < self.minLineDistance]. *)
Definition closer_than (minLineDistance : Z) (a b : LineObj) : result bool :=
  d <- Line.perpDistance a (Line.a_Line b) ;;
  Ok (Rlt_bool (Rabs d) (IZR minLineDistance)).

(** The inner [while j < length] loop over one list.  The list is mutated
    in place, so it is returned also when the loop raises.  Each turn
    increases [j], and [length] never grows: [length - j] turns suffice. *)
Fixpoint inner_while (fuel : nat) (minLineDistance : Z) (i j length : nat)
    (l : list LineObj) : result nat * list LineObj :=
  if (j <? length)%nat then
    match fuel with
    | O => (Raise OutOfFuel, l)
    | S fuel =>
        match nth_error l i, nth_error l j with
        | Some a, Some b =>
            match closer_than minLineDistance a b with
            | Raise e => (Raise e, l)
            | Ok true =>
                match list_remove b l with
                | Raise e => (Raise e, l)
                | Ok l' =>
                    inner_while fuel minLineDistance i (S j) (length - 1) l'
                end
            | Ok false => inner_while fuel minLineDistance i (S j) length l
            end
        | _, _ => (Raise IndexError, l)
        end
    end
  else (Ok length, l).

(** The outer [while i < length] loop. *)
Fixpoint outer_while (fuel : nat) (minLineDistance : Z) (i length : nat)
    (l : list LineObj) : result unit * list LineObj :=
  if (i <? length)%nat then
    match fuel with
    | O => (Raise OutOfFuel, l)
    | S fuel =>
        match inner_while (length - S i) minLineDistance i (S i) length l with
        | (Raise e, l') => (Raise e, l')
        | (Ok length', l') =>
            outer_while fuel minLineDistance (S i) length' l'
        end
    end
  else (Ok tt, l).

(** One deduplication pass: [length = len(l); i = 0; while ...]. *)
Definition dedup (minLineDistance : Z) (l : list LineObj)
  : result unit * list LineObj :=
  outer_while (List.length l) minLineDistance 0 (List.length l) l.

Definition _eliminateRedundancies (w : World) (lines : list (option LineObj))
  : result unit * World :=
  let originalTolerances :=
    (horizontalTolerance (LineC w), verticalTolerance (LineC w)) in
  let w := set_tolerances 1 1 w in
  let w := set_verticals (filterVerticals (LineC w) lines) w in
  let w := set_horizontals (filterHorizontals (LineC w) lines) w in
  match dedup (minLineDistance (self w)) (_verticals (self w)) with
  | (Raise e, l) => (Raise e, set_verticals l w)
  | (Ok _, l) =>
      let w := set_verticals l w in
      match dedup (minLineDistance (self w)) (_horizontals (self w)) with
      | (Raise e, l) => (Raise e, set_horizontals l w)
      | (Ok _, l) =>
          let w := set_horizontals l w in
          (Ok tt,
           set_tolerances (fst originalTolerances) (snd originalTolerances) w)
      end
  end.

(** One turn of the loop of [xExtremes] over a line that is vertical. *)
Definition xExtremes_step (lr : option LineObj * option LineObj)
    (line : LineObj) : option LineObj * option LineObj :=
  let '(leftmost, rightmost) := lr in
  let leftmost :=
    match leftmost with
    | None => Some line
    | Some l =>
        if fst (pts0 line) <? fst (pts0 l) - 10 then Some line else Some l
    end in
  let rightmost :=
    match rightmost with
    | None => Some line
    | Some r =>
        if fst (pts0 r) + 10 <? fst (pts0 line) then Some line else Some r
    end in
  (leftmost, rightmost).

(** [xExtremes]: the returned two-element list is a pair.  An item that is
    [None] has no [isVertical]. *)
Fixpoint xExtremes_from (C : LineClass) (lr : option LineObj * option LineObj)
    (lines : list (option LineObj))
  : result (option LineObj * option LineObj) :=
  match lines with
  | [] => Ok lr
  | None :: _ => Raise AttributeError
  | Some line :: rest =>
      xExtremes_from C
        (if Line.isVertical C line then xExtremes_step lr line else lr) rest
  end.

Definition xExtremes (C : LineClass) (lines : list (option LineObj))
  : result (option LineObj * option LineObj) :=
  xExtremes_from C (None, None) lines.

(** One turn of the loop of [yExtremes] over a line that is horizontal:
    topmost compares the y of the first endpoint, bottommost its x. *)
Definition yExtremes_step (tb : option LineObj * option LineObj)
    (line : LineObj) : option LineObj * option LineObj :=
  let '(topmost, bottommost) := tb in
  let topmost :=
    match topmost with
    | None => Some line
    | Some t =>
        if snd (pts0 line) <? snd (pts0 t) - 10 then Some line else Some t
    end in
  let bottommost :=
    match bottommost with
    | None => Some line
    | Some b =>
        if fst (pts0 b) + 10 <? fst (pts0 line) then Some line else Some b
    end in
  (topmost, bottommost).

Fixpoint yExtremes_from (C : LineClass) (tb : option LineObj * option LineObj)
    (lines : list (option LineObj))
  : result (option LineObj * option LineObj) :=
  match lines with
  | [] => Ok tb
  | None :: _ => Raise AttributeError
  | Some line :: rest =>
      yExtremes_from C
        (if Line.isHorizontal C line then yExtremes_step tb line else tb) rest
  end.

Definition yExtremes (C : LineClass) (lines : list (option LineObj))
  : result (option LineObj * option LineObj) :=
  yExtremes_from C (None, None) lines.




End LineDetector.

Module SquareDetector.

Import LineDetector.

Definition is_Some {A} (o : option A) : bool :=
  match o with Some _ => true | None => false end.

(** [__Found]: the truth value of the [and] chain; a line is truthy,
    [None] is not. *)
Definition Found (verticals horizontals : option LineObj * option LineObj)
  : bool :=
  is_Some (fst verticals) && is_Some (snd verticals)
  && is_Some (fst horizontals) && is_Some (snd horizontals).

(** [for horizontal in horizontals]: the body overwrites [success]. *)
Definition corners_inner (vertical : LineObj) (horizontals : list LineObj)
    (acc : bool * list Point) : bool * list Point :=
  fold_left
    (fun (acc : bool * list Point) (horizontal : LineObj) =>
       let '(success, intersection) := Line.intersect vertical horizontal in
       match success, intersection with
       | true, Some p => (success, snd acc ++ [p])
       | _, _ => (success, snd acc)
       end)
    horizontals acc.

(** [for vertical in verticals]. *)
Definition corners_loop (verticals horizontals : list LineObj)
    (acc : bool * list Point) : bool * list Point :=
  fold_left
    (fun (acc : bool * list Point) (vertical : LineObj) =>
       corners_inner vertical horizontals acc)
    verticals acc.

(** [run] after the detection step: from [self._eliminateRedundancies]
    to the [return]; [lines] is the list the detection step produced.
    Inside the [if], a [None] among the four lines would have no
    [intersect]. *)
Definition run (w : World) (lines : list (option LineObj))
  : result (bool * list Point) * World :=
  match _eliminateRedundancies w lines with
  | (Raise e, w) => (Raise e, w)
  | (Ok _, w) =>
      match xExtremes (LineC w) (map Some (_verticals (self w))),
            yExtremes (LineC w) (map Some (_horizontals (self w))) with
      | Raise e, _ => (Raise e, w)
      | _, Raise e => (Raise e, w)
      | Ok verticals, Ok horizontals =>
          if Found verticals horizontals then
            match verticals, horizontals with
            | (Some v0, Some v1), (Some h0, Some h1) =>
                let '(success, corners) :=
                  corners_loop [v0; v1] [h0; h1] (true, []) in
                let w := set_squareCorners corners w in
                (Ok (success, squareCorners (self w)), w)
            | _, _ => (Raise AttributeError, w)
            end
          else (Ok (false, squareCorners (self w)), w)
      end
  end.

End SquareDetector.

(** ** Auxiliary definitions for the properties *)

Definition Point_eqb (a b : Point) : bool :=
  (fst a =? fst b) && (snd a =? snd b).

(** The loop test, computed on integers. *)
Definition closer_than_exec (minLineDistance : Z) (a b : LineObj)
  : result bool :=
  if Point_eqb (Line.mid b) (pts0 a) || Point_eqb (pts0 a) (pts1 a)
  then Raise ZeroDivisionError
  else Ok (0 <? minLineDistance).

(** The perpendicular distance as the specification words it: 0 when a
    leg is zero, otherwise [l1 * sin(theta)] with [theta] from the law of
    cosines.  It is compared with [Line.perpDistPoint] below. *)
Definition perpDistPoint_spec (self : Line) (pt : Point) : result R :=
  let l1 := Line.length (Line_ pt (pts0 self)) in
  let l2 := Line.length (Line_ pt (pts1 self)) in
  let l3 := Line.length self in
  if negb (Rtruthy l1) || negb (Rtruthy l3) then Ok 0%R
  else
    q <- Rdivide (l1 ^ 2 + l3 ^ 2 - l2 ^ 2) (2 * l1 * l3) ;;
    theta <- math_acos q ;;
    Ok (l1 * sin theta)%R.

(** The same line with its endpoints in the other order:
    [Line([self.pts[1], self.pts[0]])]. *)
Definition reversed (l : Line) : Line := mkLine (pts1 l) (pts0 l) (area l).


(** [Sublist l' l]: [l'] is [l] with some items dropped, the others in
    their order. *)
Inductive Sublist {A : Type} : list A -> list A -> Prop :=
| Sublist_nil : Sublist [] []
| Sublist_drop (x : A) (l' l : list A) : Sublist l' l -> Sublist l' (x :: l)
| Sublist_keep (x : A) (l' l : list A) :
    Sublist l' l -> Sublist (x :: l') (x :: l).

(** A pair of lines on which the loop test divides by zero: the first is
    of length zero, or its first endpoint is the midpoint of the second. *)
Definition zero_leg (a b : Line) : bool :=
  Point_eqb (Line.mid b) (pts0 a) || Point_eqb (pts0 a) (pts1 a).

(** The common shape of the loop bodies of [xExtremes] and [yExtremes]:
    the first extreme is kept unless the new line is lower by more than
    10 in [key1], the second unless it is higher by more than 10 in
    [key2]. *)
Definition extremes_step (key1 key2 : LineObj -> Z)
    (p : option LineObj * option LineObj) (line : LineObj)
  : option LineObj * option LineObj :=
  (match fst p with
   | None => Some line
   | Some l => if key1 line <? key1 l - 10 then Some line else Some l
   end,
   match snd p with
   | None => Some line
   | Some r => if key2 r + 10 <? key2 line then Some line else Some r
   end).

Definition start_x (l : LineObj) : Z := fst (pts0 l).
Definition start_y (l : LineObj) : Z := snd (pts0 l).

(** What holds of the two extremes after the lines [seen]: each is a
    qualifying line of [seen] that no qualifying line of [seen] beats by
    more than 10; it is missing only if no line of [seen] qualifies. *)
Definition within_margin (qualifies : LineObj -> bool)
    (key1 key2 : LineObj -> Z) (seen : list LineObj)
    (p : option LineObj * option LineObj) : Prop :=
  match fst p with
  | Some lo =>
      In lo seen /\ qualifies lo = true
      /\ forall l, In l seen -> qualifies l = true -> key1 lo - 10 <= key1 l
  | None => forall l, In l seen -> qualifies l = false
  end
  /\ match snd p with
     | Some hi =>
         In hi seen /\ qualifies hi = true
         /\ forall l, In l seen -> qualifies l = true ->
                      key2 l <= key2 hi + 10
     | None => forall l, In l seen -> qualifies l = false
     end.

(** Concrete inputs. *)
Module Scenario.

Definition line (i : nat) (a b : Point) : LineObj := mkObj i (Line_ a b).

(** A fresh [SquareDetector] under the initial tolerances. *)
Definition fresh : World := mkWorld LineClass_initial SquareDetector_init.

Definition with_minLineDistance (m : Z) : World :=
  mkWorld LineClass_initial (mkDetector 50 m [] [] []).

Definition with_tolerances (h v : Q) : World :=
  mkWorld (mkLineClass v h) SquareDetector_init.

(** The square of the specification. *)
Definition v10 := line 0 (10, 0) (10, 100).
Definition v90 := line 1 (90, 0) (90, 100).
Definition h10 := line 2 (0, 10) (100, 10).
Definition h90 := line 3 (0, 90) (100, 90).

(** Two close vertical segments. *)
Definition s0 := line 0 (0, 0) (0, 100).
Definition s2 := line 1 (2, 0) (2, 100).

(** A diagonal of slope 1, which is vertical and horizontal at once
    under the tolerances 1 and 1, two more verticals and two more
    horizontals. *)
Definition diag := line 0 (0, 0) (50, 50).
Definition v200 := line 1 (200, 0) (200, 100).
Definition v300 := line 2 (300, 0) (300, 100).
Definition h200 := line 3 (20, 200) (120, 200).
Definition h300 := line 4 (40, 300) (140, 300).

(** Two collinear verticals: the midpoint of the second is the first
    endpoint of the first. *)
Definition c0 := line 0 (50, 50) (50, 150).
Definition c1 := line 1 (50, 0) (50, 100).

End Scenario.

(** * Auxiliary lemmas *)

(** ** The perpendicular distance *)

Lemma Point_eqb_eq (a b : Point) : Point_eqb a b = true <-> a = b.
Proof.
  destruct a as [ax ay], b as [bx b_y]; unfold Point_eqb; simpl.
  rewrite andb_true_iff, !Z.eqb_eq. split.
  - intros [-> ->]; reflexivity.
  - intros H; inversion H; auto.
Qed.

Lemma length_zero_iff (l : Line) : Line.length l = 0%R <-> pts0 l = pts1 l.
Proof.
  destruct l as [[x1 y1] [x2 y2] a]; unfold Line.length; cbn [pts0 pts1].
  assert (Hnn : 0 <= (x2 - x1) ^ 2 + (y2 - y1) ^ 2) by nia.
  split.
  - intros H. apply sqrt_eq_0 in H; [| apply IZR_le; exact Hnn].
    apply eq_IZR in H. f_equal; nia.
  - intros H. inversion H; subst. clear.
    replace ((x2 - x2) ^ 2 + (y2 - y2) ^ 2) with 0 by ring.
    apply sqrt_0.

Qed.

Lemma Rtruthy_length (l : Line) :
  Rtruthy (Line.length l) = negb (Point_eqb (pts0 l) (pts1 l)).
Proof.
  unfold Rtruthy. destruct (Req_dec_T (Line.length l) 0) as [H | H].
  - apply length_zero_iff in H. apply Point_eqb_eq in H. now rewrite H.
  - destruct (Point_eqb (pts0 l) (pts1 l)) eqn:E; [| reflexivity].
    apply Point_eqb_eq, length_zero_iff in E. contradiction.
Qed.

(** What the guard [if not (l1 and l3)] makes of [perpDistPoint]: the
    angle is computed exactly when a leg is zero, and the division by
    [2*l1*l3] then raises; every other call returns the integer 0. *)
Lemma perpDistPoint_cases (l : Line) (pt : Point) :
  Line.perpDistPoint l pt =
  if Point_eqb pt (pts0 l) || Point_eqb (pts0 l) (pts1 l)
  then Raise ZeroDivisionError else Ok 0%R.
Proof.
  unfold Line.perpDistPoint. destruct pt as [x y].
  rewrite (Rtruthy_length l).
  pose proof (Rtruthy_length (Line_ (x, y) (pts0 l))) as H1. simpl in H1.
  rewrite H1.
  destruct (Point_eqb (x, y) (pts0 l)) eqn:E1; simpl.
  - apply Point_eqb_eq in E1.
    assert (H0 : Line.length (Line_ (x, y) (pts0 l)) = 0%R)
      by (apply length_zero_iff; exact E1).
    rewrite H0. unfold Rdivide.
    destruct (Req_dec_T _ 0) as [_ | Hne]; [reflexivity |].
    exfalso; apply Hne; ring.
  - destruct (Point_eqb (pts0 l) (pts1 l)) eqn:E3; simpl; [| reflexivity].
    apply Point_eqb_eq, length_zero_iff in E3.
    rewrite E3. unfold Rdivide.
    destruct (Req_dec_T _ 0) as [_ | Hne]; [reflexivity |].
    exfalso; apply Hne; ring.
Qed.

Lemma closer_than_eval (m : Z) (a b : LineObj) :
  LineDetector.closer_than m a b = closer_than_exec m a b.
Proof.
  unfold LineDetector.closer_than, closer_than_exec, Line.perpDistance.
  rewrite perpDistPoint_cases.
  destruct (Point_eqb (Line.mid b) (pts0 a) || Point_eqb (pts0 a) (pts1 a));
    simpl; [reflexivity |].
  f_equal. unfold Rlt_bool. rewrite Rabs_R0.
  destruct (Rlt_dec 0 (IZR m)) as [H | H]; symmetry.
  - apply Z.ltb_lt. now apply lt_IZR.
  - apply Z.ltb_ge. apply le_IZR. lra.
Qed.

Lemma closer_than_is_exec : LineDetector.closer_than = closer_than_exec.
Proof.
  extensionality m; extensionality a; extensionality b.
  apply closer_than_eval.
Qed.

(** Unfolds one pass down to its loop test, replaces the test by its
    integer form and evaluates. *)
Ltac evaluate_pass :=
  unfold SquareDetector.run, LineDetector._eliminateRedundancies,
    LineDetector.dedup, LineDetector.outer_while, LineDetector.inner_while;
  rewrite closer_than_is_exec; vm_compute.

(** ** The deduplication loops terminate and only a zero leg can raise *)

Lemma list_remove_In (b : LineObj) (l : list LineObj) :
  In b l ->
  exists l', list_remove b l = Ok l' /\ List.length l = S (List.length l').
Proof.
  induction l as [| y l IH]; simpl; [tauto |].
  intros Hin. destruct (is_same y b) eqn:E.
  - eexists; split; reflexivity.
  - destruct Hin as [-> | Hin].
    + unfold is_same in E. rewrite Nat.eqb_refl in E. discriminate.
    + destruct (IH Hin) as (l' & -> & Hlen). simpl.
      eexists; split; [reflexivity |]. simpl. now rewrite Hlen.
Qed.

Lemma inner_while_outcome (fuel : nat) :
  forall (m : Z) (i j len : nat) (l : list LineObj),
    len = List.length l -> (i < j)%nat -> (len - j <= fuel)%nat ->
    let r := LineDetector.inner_while fuel m i j len l in
    fst r = Raise ZeroDivisionError \/
    exists len', fst r = Ok len' /\ len' = List.length (snd r)
                 /\ (len' <= len)%nat.
Proof.
  induction fuel as [| fuel IH]; intros m i j len l Hlen Hij Hfuel; simpl.
  - destruct (Nat.ltb_spec j len) as [Hj | Hj]; [lia |].
    right; exists len; simpl; auto.
  - destruct (Nat.ltb_spec j len) as [Hj | Hj];
      [| right; exists len; simpl; auto].
    destruct (nth_error l i) as [a |] eqn:Ea;
      [| apply nth_error_None in Ea; lia].
    destruct (nth_error l j) as [b |] eqn:Eb;
      [| apply nth_error_None in Eb; lia].
    rewrite closer_than_eval. unfold closer_than_exec.
    destruct (_ || _); [left; reflexivity |].
    destruct (0 <? m).
    + destruct (list_remove_In b l (nth_error_In _ _ Eb)) as (l' & -> & Hl').
      destruct (IH m i (S j) (len - 1)%nat l') as [H | (len' & H1 & H2 & H3)];
        try lia; [left; exact H |].
      right; exists len'; repeat split; auto; lia.
    + destruct (IH m i (S j) len l) as [H | (len' & H1 & H2 & H3)];
        try lia; [left; exact H |].
      right; exists len'; repeat split; auto.
Qed.

Lemma outer_while_outcome (fuel : nat) :
  forall (m : Z) (i len : nat) (l : list LineObj),
    len = List.length l -> (len - i <= fuel)%nat ->
    let r := LineDetector.outer_while fuel m i len l in
    fst r = Raise ZeroDivisionError \/ fst r = Ok tt.
Proof.
  induction fuel as [| fuel IH]; intros m i len l Hlen Hfuel; simpl.
  - destruct (Nat.ltb_spec i len) as [Hi | Hi]; [lia | right; reflexivity].
  - destruct (Nat.ltb_spec i len) as [Hi | Hi]; [| right; reflexivity].
    pose proof (inner_while_outcome (len - S i) m i (S i) len l Hlen
                  (Nat.lt_succ_diag_r i) (Nat.le_refl _)) as H.
    simpl in H.
    destruct (LineDetector.inner_while (len - S i) m i (S i) len l)
      as [[len' | e] l'] eqn:E; simpl in H.
    + destruct H as [H | (n & Hn & Hlen' & Hle)]; [discriminate |].
      injection Hn as <-. apply IH; [exact Hlen' | lia].
    + destruct H as [H | (n & H1 & _)]; [| discriminate].
      left. simpl. injection H as ->. reflexivity.
Qed.

(** A deduplication pass ends: it returns, or a zero leg made
    [perpDistance] divide by zero.  The loop bound is never exhausted
    and no index is out of range. *)
Lemma dedup_outcome (m : Z) (l : list LineObj) :
  fst (LineDetector.dedup m l) = Raise ZeroDivisionError \/
  fst (LineDetector.dedup m l) = Ok tt.
Proof.
  unfold LineDetector.dedup. apply outer_while_outcome; [reflexivity | lia].
Qed.

(** On a normal return the tolerances are the ones in effect before. *)
Lemma eliminateRedundancies_restores_on_return (w : World)
    (lines : list (option LineObj)) :
  fst (LineDetector._eliminateRedundancies w lines) = Ok tt ->
  LineC (snd (LineDetector._eliminateRedundancies w lines)) = LineC w.
Proof.
  unfold LineDetector._eliminateRedundancies.
  destruct (LineDetector.dedup _ _) as [[[] | e] l1]; simpl;
    [| discriminate].
  destruct (LineDetector.dedup _ _) as [[[] | e] l2]; simpl;
    [| discriminate].
  intros _. destruct w as [[v h] d]; reflexivity.
Qed.

(** A pass raises only by the division by zero of [perpDistance]. *)
Lemma eliminateRedundancies_outcome (w : World)
    (lines : list (option LineObj)) :
  fst (LineDetector._eliminateRedundancies w lines) = Raise ZeroDivisionError
  \/ fst (LineDetector._eliminateRedundancies w lines) = Ok tt.
Proof.
  unfold LineDetector._eliminateRedundancies.
  do 2 match goal with
  | |- context [LineDetector.dedup ?m ?l] =>
      let H := fresh "H" in
      destruct (dedup_outcome m l) as [H | H];
      destruct (LineDetector.dedup m l) as [[[] | ?] ?]; simpl in H;
      try discriminate; [injection H as ->; left; reflexivity |];
      clear H
  end.
  right; reflexivity.
Qed.

(** ** Lengths of concrete segments *)

Lemma sqrt_IZR_square (n : Z) : 0 <= n -> sqrt (IZR (n * n)) = IZR n.
Proof.
  intros H. rewrite mult_IZR. apply sqrt_square. now apply IZR_le.
Qed.

Lemma Rtruthy_nonzero (x : R) : x <> 0%R -> Rtruthy x = true.
Proof.
  intros H. unfold Rtruthy. destruct (Req_dec_T x 0); [contradiction | easy].
Qed.

(** ** Usage errors *)


(** ** Angles *)



Lemma Q2R_inject_Z (z : Z) : Q2R (inject_Z z) = IZR z.
Proof. unfold Q2R, inject_Z; simpl. field. Qed.

Lemma Q2R_slope (l : Line) :
  fst (pts0 l) <> fst (pts1 l) ->
  Q2R (Line.slope l)
  = (IZR (snd (pts1 l) - snd (pts0 l)) / IZR (fst (pts1 l) - fst (pts0 l)))%R.
Proof.
  destruct l as [[x1 y1] [x2 y2] a]; simpl. intros H.
  unfold Line.slope; cbn [pts0 pts1].
  destruct (Z.eqb_spec (x2 - x1) 0) as [E | E]; [lia |].
  rewrite Q2R_div, !Q2R_inject_Z; [reflexivity |].
  intros Hq. apply E. unfold Qeq, inject_Z in Hq; simpl in Hq. lia.
Qed.



Lemma abs_atan_bound (s : R) : (0 <= Rabs (atan s) < PI / 2)%R.
Proof.
  split; [apply Rabs_pos |].
  destruct (atan_bound s). apply Rabs_def1; lra.
Qed.

Lemma abs_atan_pos (s : R) : s <> 0%R -> (0 < Rabs (atan s))%R.
Proof.
  intros H. apply Rabs_pos_lt. intros E.
  destruct (Rtotal_order s 0) as [Hs | [Hs | Hs]]; [| contradiction |].
  - pose proof (atan_increasing s 0 Hs). rewrite atan_0 in *. lra.
  - pose proof (atan_increasing 0 s Hs). rewrite atan_0 in *. lra.
Qed.

(** ** Splitting at one half *)






(** ** Extremal lines and the found flag *)

Lemma xExtremes_from_objects (C : LineClass) (ls : list LineObj) :
  forall lr,
    LineDetector.xExtremes_from C lr (map Some ls)
    = Ok (fold_left
            (fun lr (line : LineObj) =>
               if Line.isVertical C line
               then LineDetector.xExtremes_step lr line else lr)
            ls lr).
Proof.
  induction ls as [| line ls IH]; intros lr; simpl; [reflexivity |].
  apply IH.
Qed.

Lemma yExtremes_from_objects (C : LineClass) (ls : list LineObj) :
  forall tb,
    LineDetector.yExtremes_from C tb (map Some ls)
    = Ok (fold_left
            (fun tb (line : LineObj) =>
               if Line.isHorizontal C line
               then LineDetector.yExtremes_step tb line else tb)
            ls tb).
Proof.
  induction ls as [| line ls IH]; intros tb; simpl; [reflexivity |].
  apply IH.
Qed.

Section Extremes.

Import SquareDetector.

Variable qualifies : LineObj -> bool.
Variable step :
  option LineObj * option LineObj -> LineObj ->
  option LineObj * option LineObj.
Hypothesis step_both :
  forall p line,
    is_Some (fst (step p line)) = true /\ is_Some (snd (step p line)) = true.


End Extremes.




(** ** What [run] reports *)

(** The success flag after the four pairings is the flag of the last
    one, the rightmost vertical with the bottommost horizontal. *)
Lemma corners_loop_success (v0 v1 h0 h1 : LineObj) :
  fst (SquareDetector.corners_loop [v0; v1] [h0; h1] (true, []))
  = fst (Line.intersect v1 h1).
Proof.
  unfold SquareDetector.corners_loop, SquareDetector.corners_inner.
  cbn [fold_left].
  destruct (Line.intersect v0 h0) as [[] [p00 |]];
    destruct (Line.intersect v0 h1) as [[] [p01 |]];
    destruct (Line.intersect v1 h0) as [[] [p10 |]];
    destruct (Line.intersect v1 h1) as [[] [p11 |]]; reflexivity.
Qed.

(** [run] returns a verdict unless a deduplication pass divided by
    zero. *)
Lemma run_outcome (w : World) (lines : list (option LineObj)) :
  (exists r, fst (SquareDetector.run w lines) = Ok r)
  \/ fst (SquareDetector.run w lines) = Raise ZeroDivisionError.
Proof.
  unfold SquareDetector.run.
  destruct (eliminateRedundancies_outcome w lines) as [H | H];
    destruct (LineDetector._eliminateRedundancies w lines) as [[[] | e] w'];
    simpl in H; try discriminate.
  - injection H as ->. right; reflexivity.
  - left. unfold LineDetector.xExtremes, LineDetector.yExtremes.
    rewrite xExtremes_from_objects, yExtremes_from_objects.
    match goal with
    | |- context [SquareDetector.Found ?v ?h] =>
        destruct v as [[v0 |] [v1 |]]; destruct h as [[h0 |] [h1 |]];
        cbn [SquareDetector.Found SquareDetector.is_Some fst snd andb]
    end; try (eexists; reflexivity).
    destruct (SquareDetector.corners_loop _ _ _) as [success corners].
    eexists; reflexivity.
Qed.


(** * The claims *)

(** C1.  On the square of the specification the code does not produce
    the corners (10,10), (10,90), (90,10), (90,90).  A vertical has the
    sentinel slope 100000 and the intercept 0 that [intercept] returns
    with its failure flag, so each vertical meets a horizontal [y = c] at
    [(int(c/100000), c)], which is [(0, c)]; and the pass before it
    keeps one vertical and one horizontal only.  [run] succeeds with the
    corner (0,10) four times. *)
Theorem square_scenario_corners :
  Line.intersect Scenario.v10 Scenario.h10 = (true, Some (0, 10))
  /\ Line.intersect Scenario.v10 Scenario.h90 = (true, Some (0, 90))
  /\ Line.intersect Scenario.v90 Scenario.h10 = (true, Some (0, 10))
  /\ Line.intersect Scenario.v90 Scenario.h90 = (true, Some (0, 90))
  /\ fst (SquareDetector.run Scenario.fresh
            (map Some [Scenario.v10; Scenario.v90;
                       Scenario.h10; Scenario.h90]))
     = Ok (true, [(0, 10); (0, 10); (0, 10); (0, 10)]).
Proof.
  split; [vm_compute; reflexivity |].
  split; [vm_compute; reflexivity |].
  split; [vm_compute; reflexivity |].
  split; [vm_compute; reflexivity |].
  evaluate_pass. reflexivity.
Qed.

(** C2.  The guard of [perpDistPoint] is the negation of the one the
    claim describes.  For the segment (0,0)-(4,0) and the point (0,3),
    where the law of cosines gives the distance 3, the code returns 0;
    for the zero-length segment (4,0)-(4,0), where the claim promises 0
    and no division by zero, the code raises [ZeroDivisionError]. *)
Theorem perpDistance_guard_inverted :
  Line.perpDistance (Line_ (0, 0) (4, 0)) (Line.a_tuple (0, 3)) = Ok 0%R
  /\ perpDistPoint_spec (Line_ (0, 0) (4, 0)) (0, 3) = Ok 3%R
  /\ Line.perpDistance (Line_ (4, 0) (4, 0)) (Line.a_tuple (0, 3))
     = Raise ZeroDivisionError
  /\ perpDistPoint_spec (Line_ (4, 0) (4, 0)) (0, 3) = Ok 0%R.
Proof.
  assert (L1 : Line.length (Line_ (0, 3) (0, 0)) = 3%R)
    by (exact (sqrt_IZR_square 3 ltac:(lia))).
  assert (L2 : Line.length (Line_ (0, 3) (4, 0)) = 5%R)
    by (exact (sqrt_IZR_square 5 ltac:(lia))).
  assert (L3 : Line.length (Line_ (0, 0) (4, 0)) = 4%R)
    by (exact (sqrt_IZR_square 4 ltac:(lia))).
  split; [| split; [| split]].
  - unfold Line.perpDistance. rewrite perpDistPoint_cases. reflexivity.
  - unfold perpDistPoint_spec. cbn [pts0 pts1 Line_].
    rewrite L1, L2, L3.
    rewrite !Rtruthy_nonzero by lra. cbn [negb orb].
    unfold Rdivide. destruct (Req_dec_T (2 * 3 * 4) 0) as [H | _]; [lra |].
    cbn [bind].
    replace ((3 ^ 2 + 4 ^ 2 - 5 ^ 2) / (2 * 3 * 4))%R with 0%R by lra.
    unfold math_acos.
    destruct (Rle_dec (-1) 0) as [_ | H]; [| lra].
    destruct (Rle_dec 0 1) as [_ | H]; [| lra].
    cbn [bind]. rewrite acos_0, sin_PI2. f_equal. ring.
  - unfold Line.perpDistance. rewrite perpDistPoint_cases. reflexivity.
  - unfold perpDistPoint_spec. cbn [pts0 pts1 Line_].
    assert (L0 : Line.length (Line_ (4, 0) (4, 0)) = 0%R)
      by (apply length_zero_iff; reflexivity).
    rewrite L0. unfold Rtruthy at 2.
    destruct (Req_dec_T 0 0) as [_ | H]; [| contradiction].
    cbn [negb]. now rewrite orb_true_r.
Qed.

(** C3.  The two vertical segments (0,0)-(0,100) and (2,0)-(2,100) are
    reduced to the first one with [minLineDistance = 20] and with
    [minLineDistance = 1] alike: [perpDistance] returns 0 for them, not 2,
    and 0 is below both thresholds. *)
Theorem close_verticals_one_survivor :
  Line.perpDistance Scenario.s0 (Line.a_Line Scenario.s2) = Ok 0%R
  /\ LineDetector._eliminateRedundancies (Scenario.with_minLineDistance 20)
       (map Some [Scenario.s0; Scenario.s2])
     = (Ok tt,
        set_verticals [Scenario.s0] (Scenario.with_minLineDistance 20))
  /\ LineDetector._eliminateRedundancies (Scenario.with_minLineDistance 1)
       (map Some [Scenario.s0; Scenario.s2])
     = (Ok tt,
        set_verticals [Scenario.s0] (Scenario.with_minLineDistance 1)).
Proof.
  split; [| split].
  - unfold Line.perpDistance. rewrite perpDistPoint_cases. reflexivity.
  - evaluate_pass. reflexivity.
  - evaluate_pass. reflexivity.
Qed.




(** C5.  With the diagonal as leftmost vertical and as topmost
    horizontal, the first of the four pairings is parallel and
    [intersect] reports failure for it, yet [run] returns success: the
    flag is overwritten by each later pairing and the last one is not
    parallel.  Three corners are returned. *)
Theorem parallel_pairing_not_reported :
  let lines := map Some [Scenario.diag; Scenario.v200; Scenario.v300;
                         Scenario.h200; Scenario.h300] in
  let w := snd (LineDetector._eliminateRedundancies Scenario.fresh lines) in
  LineDetector.xExtremes (LineC w) (map Some (_verticals (self w)))
    = Ok (Some Scenario.diag, Some Scenario.v300)
  /\ LineDetector.yExtremes (LineC w) (map Some (_horizontals (self w)))
    = Ok (Some Scenario.diag, Some Scenario.h300)
  /\ Qeq_bool (Line.slope Scenario.diag) (Line.slope Scenario.diag) = true
  /\ Line.intersect Scenario.diag Scenario.diag = (false, None)
  /\ fst (SquareDetector.run Scenario.fresh lines)
     = Ok (true, [(300, 300); (0, 0); (0, 300)]).
Proof.
  cbv zeta.
  split; [evaluate_pass; reflexivity |].
  split; [evaluate_pass; reflexivity |].
  split; [vm_compute; reflexivity |].
  split; [vm_compute; reflexivity |].
  evaluate_pass. reflexivity.
Qed.

(** C6.  With both tolerances at 5 before the call, a pass over two
    collinear verticals raises (the midpoint of the second is an endpoint
    of the first, so [perpDistance] divides by zero) and leaves both
    tolerances at 1: nothing restores them on that path. *)
Theorem tolerances_not_restored_on_raise :
  let w := Scenario.with_tolerances 5 5 in
  let r := LineDetector._eliminateRedundancies w
             (map Some [Scenario.c0; Scenario.c1]) in
  fst r = Raise ZeroDivisionError
  /\ LineC w = mkLineClass 5 5
  /\ LineC (snd r) = mkLineClass 1 1.
Proof.
  cbv zeta.
  split; [evaluate_pass; reflexivity |].
  split; [reflexivity |].
  evaluate_pass. reflexivity.
Qed.









(** C10.  A line whose two endpoints are equal has the vertical sentinel
    100000 as its slope; under the initial tolerances (1 and 1) it is
    therefore classified vertical and not horizontal. *)
Theorem degenerate_line_is_vertical (l : Line) :
  pts0 l = pts1 l ->
  Line.slope l = 100000%Q
  /\ Line.isVertical LineClass_initial l = true
  /\ Line.isHorizontal LineClass_initial l = false.
Proof.
  intros H.
  assert (Hs : Line.slope l = 100000%Q).
  { unfold Line.slope. rewrite H. destruct (pts1 l) as [x y].
    now rewrite Z.sub_diag. }
  unfold Line.isVertical, Line.isHorizontal. rewrite Hs.
  repeat split; reflexivity.
Qed.

Lemma degenerate_line_is_vertical_witness :
  pts0 (Line_ (7, 7) (7, 7)) = pts1 (Line_ (7, 7) (7, 7))
  /\ Line.slope (Line_ (7, 7) (7, 7)) = 100000%Q
  /\ Line.isVertical LineClass_initial (Line_ (7, 7) (7, 7)) = true
  /\ Line.isHorizontal LineClass_initial (Line_ (7, 7) (7, 7)) = false.
Proof.
  split; [reflexivity |].
  apply (degenerate_line_is_vertical (Line_ (7, 7) (7, 7))). reflexivity.
Defined.

(** * Further properties of the code *)

(** ** Truncation *)

Lemma int_of_integer (q : Q) (z : Z) : (q == inject_Z z)%Q -> int q = z.
Proof.
  unfold Qeq, int, inject_Z; simpl. intros H.
  rewrite Z.mul_1_r in H. rewrite H. apply Z.quot_mul. discriminate.
Qed.

Lemma int_between (q : Q) (a b : Z) :
  (inject_Z a <= q)%Q -> (q <= inject_Z b)%Q -> a <= int q <= b.
Proof.
  unfold Qle, int, inject_Z; simpl. rewrite !Z.mul_1_r.
  destruct q as [n d]; simpl. intros Ha Hb.
  assert (Hd : 0 < Z.pos d) by lia.
  destruct (Z.le_gt_cases 0 n) as [Hn | Hn].
  - rewrite Z.quot_div_nonneg by lia. split.
    + apply Z.div_le_lower_bound; lia.
    + apply Z.div_le_upper_bound; lia.
  - replace n with (- (- n)) by lia. rewrite Z.quot_opp_l by lia.
    rewrite Z.quot_div_nonneg by lia. split.
    + assert (- n / Z.pos d <= - a); [| lia].
      apply Z.div_le_upper_bound; lia.
    + assert (- b <= - n / Z.pos d); [| lia].
      apply Z.div_le_lower_bound; lia.
Qed.

(** ** Intercepts *)

(** The line passes through its own endpoints: on a line that is not
    vertical, [intercept(x=...)] at the x of an endpoint reports success
    with the y of that endpoint, and on a line that is not horizontal
    [intercept(y=...)] at the y of an endpoint gives its x. *)
Theorem intercept_through_endpoints (l : Line) :
  (fst (pts0 l) <> fst (pts1 l) ->
   Line.intercept_x l (fst (pts0 l)) = (true, snd (pts0 l))
   /\ Line.intercept_x l (fst (pts1 l)) = (true, snd (pts1 l)))
  /\ (snd (pts0 l) <> snd (pts1 l) ->
      Line.intercept_y l (snd (pts0 l)) = (true, fst (pts0 l))
      /\ Line.intercept_y l (snd (pts1 l)) = (true, fst (pts1 l))).
Proof.
  destruct l as [[x1 y1] [x2 y2] ar]; cbn [pts0 pts1 fst snd].
  unfold Line.intercept_x, Line.intercept_y; cbn [pts0 pts1].
  split; intros H.
  - destruct (Z.eqb_spec (x2 - x1) 0) as [E | E]; [lia |].
    split; f_equal; apply int_of_integer;
      unfold Qeq, Qplus, Qdiv, Qmult, Qinv, inject_Z; simpl;
      destruct (x2 - x1) eqn:Ed; try lia; simpl; nia.
  - destruct (Z.eqb_spec (y2 - y1) 0) as [E | E]; [lia |].
    split; f_equal; apply int_of_integer;
      unfold Qeq, Qplus, Qdiv, Qmult, Qinv, inject_Z; simpl;
      destruct (y2 - y1) eqn:Ed; try lia; simpl; nia.
Qed.

Lemma intercept_through_endpoints_witness :
  Line.intercept_x (Line_ (1, 2) (4, 11)) 1 = (true, 2)
  /\ Line.intercept_x (Line_ (1, 2) (4, 11)) 4 = (true, 11)
  /\ Line.intercept_y (Line_ (1, 2) (4, 11)) 2 = (true, 1)
  /\ Line.intercept_y (Line_ (1, 2) (4, 11)) 11 = (true, 4).
Proof.
  destruct (intercept_through_endpoints (Line_ (1, 2) (4, 11))) as [Hx Hy].
  destruct Hx as [H1 H2]; [simpl; lia |].
  destruct Hy as [H3 H4]; [simpl; lia |].
  repeat split; assumption.
Defined.

(** ** Mirroring *)

(** Mirroring twice about the same axis or point gives back the two
    endpoints (the area tag is not carried over). *)
Theorem mirror_twice (l : Line) (x y : option Z) :
  Line.mirror (Line.mirror l x y) x y = Line_ (pts0 l) (pts1 l).
Proof.
  destruct l as [[x1 y1] [x2 y2] ar].
  unfold Line.mirror, Line_; cbn [pts0 pts1].
  destruct x as [kx |], y as [ky |]; cbn [Line.given_nonzero];
    try destruct (kx =? 0); try destruct (ky =? 0); cbn [negb pts0 pts1];
    f_equal; f_equal; lia.
Qed.

(** An axis given as 0 is taken as not given: mirroring about [x = 0]
    alone returns the endpoints unchanged, it does not negate their x.
    About [x = k] with [k] not 0 each endpoint [(a, b)] goes to
    [(2k - a, b)]. *)
Theorem mirror_about_vertical_axis (l : Line) (k : Z) :
  Line.mirror l (Some k) None =
  if k =? 0 then Line_ (pts0 l) (pts1 l)
  else Line_ (2 * k - fst (pts0 l), snd (pts0 l))
             (2 * k - fst (pts1 l), snd (pts1 l)).
Proof.
  destruct l as [[x1 y1] [x2 y2] ar].
  unfold Line.mirror, Line_; cbn [pts0 pts1 fst snd Line.given_nonzero].
  destruct (k =? 0); cbn [negb]; [reflexivity |].
  f_equal; f_equal; lia.
Qed.

(** Mirroring about a point whose coordinates are both non-zero gives a
    line of the same slope and the same length, as the docstring of
    [mirror] observes. *)
Theorem mirror_about_point_parallel (l : Line) (x y : Z) :
  x <> 0 -> y <> 0 ->
  (Line.slope (Line.mirror l (Some x) (Some y)) == Line.slope l)%Q
  /\ Line.length (Line.mirror l (Some x) (Some y)) = Line.length l.
Proof.
  intros Hx Hy.
  destruct l as [[x1 y1] [x2 y2] ar].
  unfold Line.mirror, Line_; cbn [pts0 pts1 Line.given_nonzero].
  apply Z.eqb_neq in Hx, Hy. rewrite Hx, Hy. cbn [negb].
  split.
  - unfold Line.slope; cbn [pts0 pts1].
    replace (x2 + 2 * (x - x2) - (x1 + 2 * (x - x1))) with (- (x2 - x1))
      by ring.
    replace (y2 + 2 * (y - y2) - (y1 + 2 * (y - y1))) with (- (y2 - y1))
      by ring.
    destruct (Z.eqb_spec (x2 - x1) 0) as [E | E].
    + rewrite E. reflexivity.
    + destruct (Z.eqb_spec (- (x2 - x1)) 0) as [E' | E']; [lia |].
      unfold Qeq, Qdiv, Qmult, Qinv, inject_Z; simpl.
      destruct (x2 - x1) eqn:Ed; try lia; simpl; nia.
  - unfold Line.length; cbn [pts0 pts1]. do 2 f_equal. ring.
Qed.

Lemma mirror_about_point_parallel_witness :
  Qeq (Line.slope (Line.mirror (Line_ (1, 2) (4, 11)) (Some 5) (Some 7)))
      (Line.slope (Line_ (1, 2) (4, 11)))
  /\ Line.length (Line.mirror (Line_ (1, 2) (4, 11)) (Some 5) (Some 7))
     = Line.length (Line_ (1, 2) (4, 11)).
Proof.
  apply (mirror_about_point_parallel (Line_ (1, 2) (4, 11)) 5 7); lia.
Defined.

(** ** Midpoint and length *)

(** The midpoint does not depend on the order of the endpoints and each
    of its coordinates lies between those of the endpoints. *)
Theorem mid_between_endpoints (l : Line) :
  Line.mid (reversed l) = Line.mid l
  /\ Z.min (fst (pts0 l)) (fst (pts1 l)) <= fst (Line.mid l)
     <= Z.max (fst (pts0 l)) (fst (pts1 l))
  /\ Z.min (snd (pts0 l)) (snd (pts1 l)) <= snd (Line.mid l)
     <= Z.max (snd (pts0 l)) (snd (pts1 l)).
Proof.
  destruct l as [[x1 y1] [x2 y2] ar].
  unfold Line.mid, reversed; cbn [pts0 pts1 fst snd].
  split; [now rewrite (Z.add_comm x1 x2), (Z.add_comm y1 y2) |].
  pose proof (Z.div_mod (x2 + x1) 2 ltac:(lia)).
  pose proof (Z.mod_pos_bound (x2 + x1) 2 ltac:(lia)).
  pose proof (Z.div_mod (y2 + y1) 2 ltac:(lia)).
  pose proof (Z.mod_pos_bound (y2 + y1) 2 ltac:(lia)).
  lia.
Qed.

(** The length does not depend on the order of the endpoints, is never
    negative, and is zero exactly for a line whose endpoints are equal. *)
Theorem length_zero_only_degenerate (l : Line) :
  Line.length (reversed l) = Line.length l
  /\ (0 <= Line.length l)%R
  /\ (Line.length l = 0%R <-> pts0 l = pts1 l).
Proof.
  split; [| split; [| apply length_zero_iff]].
  - destruct l as [[x1 y1] [x2 y2] ar].
    unfold Line.length, reversed; cbn [pts0 pts1]. do 2 f_equal. ring.
  - destruct l as [[x1 y1] [x2 y2] ar].
    unfold Line.length; cbn [pts0 pts1]. apply sqrt_pos.
Qed.

(** ** The range of the angle *)

Lemma Q2R_slope_nonzero (l : Line) :
  snd (pts0 l) <> snd (pts1 l) -> Q2R (Line.slope l) <> 0%R.
Proof.
  intros Hy.
  destruct (Z.eq_dec (fst (pts0 l)) (fst (pts1 l))) as [Ex | Ex].
  - destruct l as [[x1 y1] [x2 y2] ar]; cbn [pts0 pts1 fst snd] in *.
    unfold Line.slope; cbn [pts0 pts1]. subst x2. rewrite Z.sub_diag.
    change (0 =? 0) with true. cbv iota.
    change 100000%Q with (inject_Z 100000). rewrite Q2R_inject_Z. lra.
  - rewrite (Q2R_slope l Ex). intros E.
    apply Rmult_integral in E. destruct E as [E | E].
    + apply eq_IZR in E. lia.
    + revert E. apply Rinv_neq_0_compat. intros E. apply eq_IZR in E. lia.
Qed.

(** [angle()] lies in [0, 360) degrees, and [angle(True)] in [0, 2 pi),
    for every line, a zero-length line included. *)
Theorem angle_range (l : Line) :
  (0 <= Line.angle l false < 360)%R
  /\ (0 <= Line.angle l true < 2 * PI)%R.
Proof.
  pose proof (abs_atan_bound (Q2R (Line.slope l))) as HA.
  pose proof PI_RGT_0 as Hpi.
  assert (Hpos : snd (pts1 l) - snd (pts0 l) < 0 ->
                 (0 < Rabs (atan (Q2R (Line.slope l))))%R).
  { intros H. apply abs_atan_pos, Q2R_slope_nonzero. lia. }
  assert (Hrad : (0 <= Line.angle l true < 2 * PI)%R).
  { unfold Line.angle.
    destruct l as [[x1 y1] [x2 y2] ar]; cbn [pts0 pts1 fst snd] in *.
    destruct (Z.leb_spec 0 (x2 - x1)); destruct (Z.leb_spec 0 (y2 - y1));
      try (specialize (Hpos ltac:(lia))); lra. }
  split; [| exact Hrad].
  assert (E : Line.angle l false = math_degrees (Line.angle l true)).
  { unfold Line.angle. destruct l as [[x1 y1] [x2 y2] ar]. reflexivity. }
  rewrite E. unfold math_degrees.
  assert (Hk : (0 < 180 / PI)%R) by (apply Rdiv_lt_0_compat; lra).
  split.
  - apply Rmult_le_pos; lra.
  - replace 360%R with (2 * PI * (180 / PI))%R by (field; lra).
    apply Rmult_lt_compat_r; lra.
Qed.

(** ** The split point *)

Lemma Qlt_bool_true (x y : Q) : (x < y)%Q -> Qlt_bool x y = true.
Proof.
  intros H. unfold Qlt_bool. apply negb_true_iff.
  destruct (Qle_bool y x) eqn:E; [| reflexivity].
  apply Qle_bool_iff in E. exfalso. exact (Qlt_not_le _ _ H E).
Qed.

Lemma interpolation_between (a b : Z) (r : Q) :
  (0 < r)%Q -> (r < 1)%Q ->
  Z.min a b <= int (inject_Z a + inject_Z (b - a) * r)%Q <= Z.max a b.
Proof.
  intros H0 H1.
  pose proof (Z.le_min_l a b). pose proof (Z.le_min_r a b).
  pose proof (Z.le_max_l a b). pose proof (Z.le_max_r a b).
  set (m := Z.min a b) in *. set (M := Z.max a b) in *. clearbody m M.
  apply int_between;
    destruct r as [n d]; unfold Qlt, Qle, Qplus, Qmult, inject_Z in *;
    simpl in *; nia.
Qed.

(** For a ratio inside (0,1) and either value of [end], [split] returns
    the segments [p0, s] and [s, p1], and each coordinate of the split
    point [s] lies between those of the two endpoints. *)
Theorem split_point_between (l : Line) (end_ : Z) (ratio : Q) :
  (0 < ratio)%Q -> (ratio < 1)%Q ->
  exists s : Point,
    Line.split l end_ ratio = Ok (Line_ (pts0 l) s, Line_ s (pts1 l))
    /\ Z.min (fst (pts0 l)) (fst (pts1 l)) <= fst s
       <= Z.max (fst (pts0 l)) (fst (pts1 l))
    /\ Z.min (snd (pts0 l)) (snd (pts1 l)) <= snd s
       <= Z.max (snd (pts0 l)) (snd (pts1 l)).
Proof.
  intros H0 H1. unfold Line.split.
  rewrite (Qlt_bool_true _ _ H0), (Qlt_bool_true _ _ H1). cbn [andb negb].
  destruct l as [[x1 y1] [x2 y2] ar]; cbn [pts0 pts1 fst snd].
  destruct (end_ =? 0); eexists; (split; [reflexivity |]); cbn [fst snd].
  - split; apply interpolation_between; assumption.
  - rewrite (Z.min_comm x1 x2), (Z.max_comm x1 x2),
      (Z.min_comm y1 y2), (Z.max_comm y1 y2).
    split; apply interpolation_between; assumption.
Qed.

Lemma split_point_between_witness :
  exists s : Point,
    Line.split (Line_ (0, 0) (10, -7)) 1 (1 # 3)
    = Ok (Line_ (0, 0) s, Line_ s (10, -7))
    /\ 0 <= fst s <= 10 /\ -7 <= snd s <= 0.
Proof.
  destruct (split_point_between (Line_ (0, 0) (10, -7)) 1 (1 # 3))
    as (s & Hs & Hx & Hy); [reflexivity | reflexivity |].
  exists s. split; [exact Hs |]. split; [exact Hx | exact Hy].
Defined.

(** ** Extending *)

(** The two axes may be given in either order. *)
Theorem extend_axis_order (C : LineClass) (l : Line) (a b : Z) :
  Line.extend C l (Some (a, b)) None = Line.extend C l (Some (b, a)) None
  /\ Line.extend C l None (Some (a, b)) = Line.extend C l None (Some (b, a)).
Proof.
  unfold Line.extend, Line.extend_horizontals, Line.extend_verticals.
  destruct (pts0 l) as [x1 y1], (pts1 l) as [x2 y2].
  destruct (Z.ltb_spec b a); destruct (Z.ltb_spec a b); try lia;
    try (split; reflexivity).
  assert (a = b) by lia. subst b. split; reflexivity.
Qed.

(** Extending a line that is not vertical between two vertical axes
    succeeds, and the x-coordinates of the two endpoints of the result
    are the two axes; likewise for a line that is not horizontal and two
    horizontal axes.  Extending a line parallel to the axes raises. *)
Theorem extend_spans_axes (C : LineClass) (l : Line) (a b : Z) :
  (if fst (pts0 l) =? fst (pts1 l)
   then Line.extend C l None (Some (a, b))
        = Raise (Exception "Extend Error: Line is parallel to the axes")
   else exists l',
       Line.extend C l None (Some (a, b)) = Ok l'
       /\ ((fst (pts0 l') = a /\ fst (pts1 l') = b)
           \/ (fst (pts0 l') = b /\ fst (pts1 l') = a)))
  /\ (if snd (pts0 l) =? snd (pts1 l)
      then Line.extend C l (Some (a, b)) None
           = Raise (Exception "Extend Error: Line is parallel to the axes")
      else exists l',
          Line.extend C l (Some (a, b)) None = Ok l'
          /\ ((snd (pts0 l') = a /\ snd (pts1 l') = b)
              \/ (snd (pts0 l') = b /\ snd (pts1 l') = a))).
Proof.
  unfold Line.extend, Line.extend_horizontals, Line.extend_verticals.
  destruct l as [[x1 y1] [x2 y2] ar]; cbn [pts0 pts1 fst snd].
  split.
  - destruct (Z.eqb_spec x1 x2) as [E | E];
      [destruct (b <? a); reflexivity |].
    destruct (Z.ltb_spec b a);
      destruct (Z.eqb_spec x1 a); destruct (Z.eqb_spec x2 b);
      destruct (Z.eqb_spec x1 b); destruct (Z.eqb_spec x2 a);
      cbn [andb orb]; eexists; (split; [reflexivity |]);
      cbn [pts0 pts1 fst snd Line_]; lia.
  - destruct (Z.eqb_spec y1 y2) as [E | E];
      [destruct (b <? a); reflexivity |].
    destruct (Z.ltb_spec b a);
      destruct (Z.eqb_spec y1 a); destruct (Z.eqb_spec y2 b);
      destruct (Z.eqb_spec y1 b); destruct (Z.eqb_spec y2 a);
      cbn [andb orb]; eexists; (split; [reflexivity |]);
      cbn [pts0 pts1 fst snd Line_]; lia.
Qed.

(** Extending is idempotent: between two different axes, extending the
    extended line again returns it unchanged. *)
Theorem extend_idempotent (C : LineClass) (l : Line) (a b : Z) :
  a <> b ->
  (forall l', Line.extend C l None (Some (a, b)) = Ok l' ->
              Line.extend C l' None (Some (a, b)) = Ok l')
  /\ (forall l', Line.extend C l (Some (a, b)) None = Ok l' ->
                 Line.extend C l' (Some (a, b)) None = Ok l').
Proof.
  intros Hab.
  unfold Line.extend, Line.extend_horizontals, Line.extend_verticals.
  destruct l as [[x1 y1] [x2 y2] ar]; cbn [pts0 pts1 fst snd].
  split; intros l'.
  - destruct (Z.eqb_spec x1 x2) as [E | E];
      [destruct (b <? a); discriminate |].
    destruct (Z.ltb_spec b a);
      destruct (Z.eqb_spec x1 a); destruct (Z.eqb_spec x2 b);
      destruct (Z.eqb_spec x1 b); destruct (Z.eqb_spec x2 a);
      cbn [andb orb]; intros Hext; injection Hext as <-;
      cbn [pts0 pts1 Line_];
      repeat match goal with
        | |- context [Z.eqb ?u ?v] => destruct (Z.eqb_spec u v); try lia
        | |- context [Z.ltb ?u ?v] => destruct (Z.ltb_spec u v); try lia
        end; cbn [andb orb]; reflexivity.
  - destruct (Z.eqb_spec y1 y2) as [E | E];
      [destruct (b <? a); discriminate |].
    destruct (Z.ltb_spec b a);
      destruct (Z.eqb_spec y1 a); destruct (Z.eqb_spec y2 b);
      destruct (Z.eqb_spec y1 b); destruct (Z.eqb_spec y2 a);
      cbn [andb orb]; intros Hext; injection Hext as <-;
      cbn [pts0 pts1 Line_];
      repeat match goal with
        | |- context [Z.eqb ?u ?v] => destruct (Z.eqb_spec u v); try lia
        | |- context [Z.ltb ?u ?v] => destruct (Z.ltb_spec u v); try lia
        end; cbn [andb orb]; reflexivity.
Qed.

Lemma extend_idempotent_witness :
  Line.extend LineClass_initial (Line_ (100, 100) (400, 250)) None
    (Some (10, 490))
  = Ok (Line_ (490, 295) (10, 55))
  /\ Line.extend LineClass_initial (Line_ (490, 295) (10, 55)) None
       (Some (10, 490))
     = Ok (Line_ (490, 295) (10, 55)).
Proof.
  assert (H : Line.extend LineClass_initial (Line_ (100, 100) (400, 250))
                None (Some (10, 490)) = Ok (Line_ (490, 295) (10, 55)))
    by reflexivity.
  split; [exact H |].
  apply (proj1 (extend_idempotent LineClass_initial
                  (Line_ (100, 100) (400, 250)) 10 490 ltac:(lia))).
  exact H.
Defined.

(** With no argument [extend] chooses the axes by [isHorizontal].  For a
    horizontal tolerance between 0 and the vertical sentinel, it raises
    exactly on a line whose two endpoints are equal. *)
Theorem extend_default_raises_iff_degenerate (C : LineClass) (l : Line) :
  (0 <= horizontalTolerance C)%Q -> (horizontalTolerance C < 100000)%Q ->
  if Point_eqb (pts0 l) (pts1 l)
  then Line.extend C l None None
       = Raise (Exception "Extend Error: Line is parallel to the axes")
  else exists l', Line.extend C l None None = Ok l'.
Proof.
  intros Hlo Hhi.
  destruct l as [[x1 y1] [x2 y2] ar].
  unfold Line.extend, Line.isHorizontal, Line.slope, Point_eqb;
    cbn [pts0 pts1 fst snd].
  destruct (Z.eqb_spec (x2 - x1) 0) as [Ex | Ex].
  - assert (x1 = x2) by lia. subst x2. rewrite Z.eqb_refl. cbn [andb].
    assert (Hs : Qle_bool 100000 (horizontalTolerance C) = false).
    { destruct (Qle_bool 100000 (horizontalTolerance C)) eqn:E;
        [| reflexivity].
      apply Qle_bool_iff in E. exfalso. exact (Qlt_not_le _ _ Hhi E). }
    rewrite Hs. unfold Line.extend_horizontals; cbn [pts0 pts1].
    change (500 <? 0) with false. cbv iota.
    destruct (Z.eqb_spec y1 y2); [reflexivity |].
    destruct (_ || _); eexists; reflexivity.
  - destruct (Z.eqb_spec x1 x2); [lia |]. cbn [andb].
    destruct (Qle_bool _ _) eqn:Eh.
    + unfold Line.extend_verticals; cbn [pts0 pts1].
      change (500 <? 0) with false. cbv iota.
      destruct (Z.eqb_spec x1 x2); [lia |].
      destruct (_ || _); eexists; reflexivity.
    + unfold Line.extend_horizontals; cbn [pts0 pts1].
      change (500 <? 0) with false. cbv iota.
      destruct (Z.eqb_spec y1 y2) as [Ey | Ey].
      * exfalso. subst y2. rewrite Z.sub_diag in Eh.
        assert (Ht : Qle_bool (inject_Z 0 / inject_Z (x2 - x1))
                       (horizontalTolerance C) = true).
        { apply Qle_bool_iff.
          apply Qle_trans with 0%Q; [| exact Hlo].
          unfold Qle, Qdiv, Qmult; simpl. lia. }
        congruence.
      * destruct (_ || _); eexists; reflexivity.
Qed.

Lemma extend_default_raises_iff_degenerate_witness :
  Line.extend LineClass_initial (Line_ (3, 4) (3, 4)) None None
  = Raise (Exception "Extend Error: Line is parallel to the axes")
  /\ exists l',
      Line.extend LineClass_initial (Line_ (100, 100) (400, 250)) None None
      = Ok l'.
Proof.
  split.
  - apply (extend_default_raises_iff_degenerate LineClass_initial
             (Line_ (3, 4) (3, 4))); [unfold Qle; simpl; lia | reflexivity].
  - apply (extend_default_raises_iff_degenerate LineClass_initial
             (Line_ (100, 100) (400, 250)));
      [unfold Qle; simpl; lia | reflexivity].
Defined.

(** ** Lines through a point *)

(** [linePassingBy] raises on a zero slope.  Otherwise it returns a line
    from the border [y = 0] to the border [y = h]; a point that lies on
    one of the two borders is the endpoint on that border. *)
Theorem linePassingBy_borders (pt : Point) (slope : Q) (h : Z) :
  if Qeq_bool slope 0
  then Line.linePassingBy pt slope h = Raise ZeroDivisionError
  else exists x0 xh : Z,
      Line.linePassingBy pt slope h = Ok (Line_ (x0, 0) (xh, h))
      /\ (snd pt = 0 -> x0 = fst pt)
      /\ (snd pt = h -> xh = fst pt).
Proof.
  destruct pt as [x y]. unfold Line.linePassingBy. cbn [fst snd].
  destruct (Qeq_bool slope 0) eqn:E; [reflexivity |].
  assert (Hs : ~ (slope == 0)%Q)
    by (intros H; apply Qeq_bool_iff in H; congruence).
  do 2 eexists. split; [reflexivity |].
  split; intros ->; apply int_of_integer.
  - change (inject_Z 0) with 0%Q. field. exact Hs.
  - rewrite Z.sub_diag. change (inject_Z 0) with 0%Q. field. exact Hs.
Qed.

Lemma linePassingBy_borders_witness :
  (exists xh : Z,
      Line.linePassingBy (7, 0) (3 # 2) 100 = Ok (Line_ (7, 0) (xh, 100)))
  /\ Line.linePassingBy (7, 0) 0 100 = Raise ZeroDivisionError.
Proof.
  split.
  - pose proof (linePassingBy_borders (7, 0) (3 # 2) 100) as H.
    change (Qeq_bool (3 # 2) 0) with false in H. cbv iota in H.
    destruct H as (x0 & xh & H & H0 & _).
    exists xh. rewrite H. rewrite (H0 eq_refl). reflexivity.
  - exact (linePassingBy_borders (7, 0) 0 100).
Defined.

(** ** Intersections *)

(** [intersect] takes a vertical line as the line of slope 100000
    through the origin, wherever the vertical line stands: any two
    vertical lines give the same result against any third line, and
    against each other they are reported parallel. *)
Theorem intersect_vertical_position_ignored (v v' l : Line) :
  fst (pts0 v) = fst (pts1 v) ->
  fst (pts0 v') = fst (pts1 v') ->
  Line.intersect v l = Line.intersect v' l
  /\ Line.intersect l v = Line.intersect l v'
  /\ Line.intersect v v' = (false, None).
Proof.
  intros Hv Hv'.
  assert (S : forall u, fst (pts0 u) = fst (pts1 u) ->
                        Line.slope u = 100000%Q
                        /\ Line.intercept_x u 0 = (false, 0)).
  { intros [[x1 y1] [x2 y2] ar]; cbn [pts0 pts1 fst snd]. intros ->.
    unfold Line.slope, Line.intercept_x; cbn [pts0 pts1].
    rewrite Z.sub_diag. split; reflexivity. }
  destruct (S v Hv) as [Sv Iv]. destruct (S v' Hv') as [Sv' Iv'].
  unfold Line.intersect. rewrite Sv, Sv', Iv, Iv'.
  repeat split.
Qed.

Lemma intersect_vertical_position_ignored_witness :
  Line.intersect (Line_ (10, 0) (10, 100)) (Line_ (0, 0) (100, 50))
  = Line.intersect (Line_ (90, 5) (90, 60)) (Line_ (0, 0) (100, 50)).
Proof.
  apply (intersect_vertical_position_ignored
           (Line_ (10, 0) (10, 100)) (Line_ (90, 5) (90, 60))
           (Line_ (0, 0) (100, 50))); reflexivity.
Defined.

(** [intersect] reports failure, with no point, exactly when the two
    slopes are equal; otherwise it reports success with a point. *)
Theorem intersect_fails_iff_equal_slopes (a b : Line) :
  (fst (Line.intersect a b) = false <-> (Line.slope a == Line.slope b)%Q)
  /\ (snd (Line.intersect a b) = None <-> fst (Line.intersect a b) = false).
Proof.
  unfold Line.intersect, Qtruthy.
  destruct (Qeq_bool (Line.slope a - Line.slope b) 0) eqn:E; cbn [negb fst snd].
  - apply Qeq_bool_iff in E. split; [| tauto].
    split; [intros _ | reflexivity].
    rewrite <- (Qplus_0_l (Line.slope b)), <- E. ring.
  - split; [| split; discriminate].
    split; [discriminate |]. intros H. exfalso.
    assert (Hq : (Line.slope a - Line.slope b == 0)%Q) by (rewrite H; ring).
    apply Qeq_bool_iff in Hq. congruence.
Qed.

(** ** The perpendicular distance, in general *)

(** [perpDistance] never measures anything: for a point or a line as
    target it returns 0 when the line has two different endpoints and
    the target point is not its first endpoint, and raises
    [ZeroDivisionError] in every other case; any other target raises the
    usage error. *)
Theorem perpDistance_zero_or_raises (l : Line) :
  (forall pt : Point,
      Line.perpDistance l (Line.a_tuple pt) =
      if Point_eqb pt (pts0 l) || Point_eqb (pts0 l) (pts1 l)
      then Raise ZeroDivisionError else Ok 0%R)
  /\ (forall o : Line,
      Line.perpDistance l (Line.a_Line o) =
      if Point_eqb (Line.mid o) (pts0 l) || Point_eqb (pts0 l) (pts1 l)
      then Raise ZeroDivisionError else Ok 0%R)
  /\ Line.perpDistance l Line.other
     = Raise (Exception "perpDistance Error: Invalid Parameter").
Proof.
  repeat split; intros; apply perpDistPoint_cases.
Qed.

(** ** The deduplication pass, in general *)

Lemma Sublist_refl {A} (l : list A) : Sublist l l.
Proof. induction l; [apply Sublist_nil | now apply Sublist_keep]. Qed.

Lemma Sublist_trans {A} (l1 l2 l3 : list A) :
  Sublist l1 l2 -> Sublist l2 l3 -> Sublist l1 l3.
Proof.
  intros H12 H23. revert l1 H12.
  induction H23 as [| x l2 l3 H IH | x l2 l3 H IH]; intros l1 H12.
  - exact H12.
  - constructor. now apply IH.
  - inversion H12; subst.
    + apply Sublist_drop. now apply IH.
    + apply Sublist_keep. now apply IH.
Qed.

Lemma Sublist_In {A} (l' l : list A) (x : A) :
  Sublist l' l -> In x l' -> In x l.
Proof.
  induction 1; simpl; intros Hin; auto.
  destruct Hin; auto.
Qed.

Lemma Sublist_length {A} (l' l : list A) :
  Sublist l' l -> (List.length l' <= List.length l)%nat.
Proof. induction 1; simpl; lia. Qed.

Lemma list_remove_Sublist (b : LineObj) (l l' : list LineObj) :
  list_remove b l = Ok l' -> Sublist l' l.
Proof.
  revert l'. induction l as [| y l IH]; simpl; intros l' H; [discriminate |].
  destruct (is_same y b).
  - injection H as <-. apply Sublist_drop. apply Sublist_refl.
  - destruct (list_remove b l) as [l'' |]; simpl in H; [| discriminate].
    injection H as <-. apply Sublist_keep. now apply IH.
Qed.

Lemma inner_while_spec (fuel : nat) :
  forall (m : Z) (i j len : nat) (l : list LineObj),
    len = List.length l -> (i < j)%nat -> (len - j <= fuel)%nat ->
    let r := LineDetector.inner_while fuel m i j len l in
    Sublist (snd r) l
    /\ ((fst r = Raise ZeroDivisionError
         /\ exists a b, In a l /\ In b l /\ zero_leg a b = true)
        \/ exists len', fst r = Ok len' /\ len' = List.length (snd r)
                        /\ (len' <= len)%nat).
Proof.
  induction fuel as [| fuel IH]; intros m i j len l Hlen Hij Hfuel; simpl.
  - destruct (Nat.ltb_spec j len) as [Hj | Hj]; [lia |].
    split; [apply Sublist_refl |]. right; exists len; simpl; auto.
  - destruct (Nat.ltb_spec j len) as [Hj | Hj];
      [| split; [apply Sublist_refl | right; exists len; simpl; auto]].
    destruct (nth_error l i) as [a |] eqn:Ea;
      [| apply nth_error_None in Ea; lia].
    destruct (nth_error l j) as [b |] eqn:Eb;
      [| apply nth_error_None in Eb; lia].
    rewrite closer_than_eval. unfold closer_than_exec. fold (zero_leg a b).
    destruct (zero_leg a b) eqn:Ez.
    { split; [apply Sublist_refl |]. left. split; [reflexivity |].
      exists a, b. eauto using nth_error_In. }
    destruct (0 <? m).
    + destruct (list_remove_In b l (nth_error_In _ _ Eb)) as (l' & El' & Hl').
      rewrite El'. pose proof (list_remove_Sublist _ _ _ El') as Hsub.
      destruct (IH m i (S j) (len - 1)%nat l') as [S1 S2]; try lia.
      split; [eapply Sublist_trans; eassumption |].
      destruct S2 as [[H (a' & b' & Ha' & Hb' & Hz)] | (len' & H1 & H2 & H3)].
      * left. split; [exact H |].
        exists a', b'. eauto using Sublist_In.
      * right; exists len'; repeat split; auto; lia.
    + destruct (IH m i (S j) len l) as [S1 S2]; try lia.
      split; [exact S1 |].
      destruct S2 as [[H He] | (len' & H1 & H2 & H3)]; [left; auto |].
      right; exists len'; repeat split; auto.
Qed.

Lemma outer_while_spec (fuel : nat) :
  forall (m : Z) (i len : nat) (l : list LineObj),
    len = List.length l -> (len - i <= fuel)%nat ->
    let r := LineDetector.outer_while fuel m i len l in
    Sublist (snd r) l
    /\ ((fst r = Raise ZeroDivisionError
         /\ exists a b, In a l /\ In b l /\ zero_leg a b = true)
        \/ fst r = Ok tt).
Proof.
  induction fuel as [| fuel IH]; intros m i len l Hlen Hfuel; simpl.
  - destruct (Nat.ltb_spec i len) as [Hi | Hi]; [lia |].
    split; [apply Sublist_refl | right; reflexivity].
  - destruct (Nat.ltb_spec i len) as [Hi | Hi];
      [| split; [apply Sublist_refl | right; reflexivity]].
    pose proof (inner_while_spec (len - S i) m i (S i) len l Hlen
                  (Nat.lt_succ_diag_r i) (Nat.le_refl _)) as H.
    simpl in H.
    destruct (LineDetector.inner_while (len - S i) m i (S i) len l)
      as [[len' | e] l'] eqn:E; simpl in H; destruct H as [Hsub H].
    + destruct H as [[H _] | (n & Hn & Hlen' & Hle)]; [discriminate |].
      injection Hn as <-.
      destruct (IH m (S i) len' l') as [S1 S2]; [exact Hlen' | lia |].
      split; [eapply Sublist_trans; eassumption |].
      destruct S2 as [[H (a' & b' & Ha' & Hb' & Hz)] | H]; [| right; exact H].
      left. split; [exact H |]. exists a', b'. eauto using Sublist_In.
    + simpl. split; [exact Hsub |].
      destruct H as [[H He] | (n & Hn & _)]; [| discriminate].
      injection H as ->. left. split; [reflexivity | exact He].
Qed.

Lemma dedup_spec (m : Z) (l : list LineObj) :
  Sublist (snd (LineDetector.dedup m l)) l
  /\ ((fst (LineDetector.dedup m l) = Raise ZeroDivisionError
       /\ exists a b, In a l /\ In b l /\ zero_leg a b = true)
      \/ fst (LineDetector.dedup m l) = Ok tt).
Proof.
  unfold LineDetector.dedup. apply outer_while_spec; [reflexivity | lia].
Qed.

(** A deduplication pass only drops lines: what it leaves, also when it
    raises, is the given list with some items removed and the others in
    their order.  It returns normally unless some line of the list has
    zero length or has its first endpoint at the midpoint of a line of
    the list. *)
Theorem dedup_only_removes (m : Z) (l : list LineObj) :
  Sublist (snd (LineDetector.dedup m l)) l
  /\ ((forall a b : LineObj, In a l -> In b l -> zero_leg a b = false) ->
      fst (LineDetector.dedup m l) = Ok tt).
Proof.
  destruct (dedup_spec m l) as [Hsub H].
  split; [exact Hsub |]. intros Hsafe.
  destruct H as [[_ (a & b & Ha & Hb & Hz)] | H]; [| exact H].
  rewrite (Hsafe a b Ha Hb) in Hz. discriminate.
Qed.

Lemma dedup_only_removes_witness :
  fst (LineDetector.dedup 20 [Scenario.s0; Scenario.s2]) = Ok tt.
Proof.
  apply (proj2 (dedup_only_removes 20 [Scenario.s0; Scenario.s2])).
  intros a b [<- | [<- | []]] [<- | [<- | []]]; reflexivity.
Defined.

Lemma inner_while_keeps (fuel : nat) :
  forall (m : Z) (i j len : nat) (l : list LineObj),
    m <= 0 ->
    let r := LineDetector.inner_while fuel m i j len l in
    snd r = l /\ (forall len', fst r = Ok len' -> len' = len).
Proof.
  induction fuel as [| fuel IH]; intros m i j len l Hm; simpl.
  - destruct (j <? len)%nat; simpl; split; congruence.
  - destruct (j <? len)%nat; simpl; [| split; congruence].
    destruct (nth_error l i) as [a |]; [| simpl; split; congruence].
    destruct (nth_error l j) as [b |]; [| simpl; split; congruence].
    rewrite closer_than_eval. unfold closer_than_exec.
    destruct (_ || _); [simpl; split; congruence |].
    destruct (Z.ltb_spec 0 m); [lia |]. now apply IH.
Qed.

Lemma outer_while_keeps (fuel : nat) :
  forall (m : Z) (i len : nat) (l : list LineObj),
    m <= 0 -> snd (LineDetector.outer_while fuel m i len l) = l.
Proof.
  induction fuel as [| fuel IH]; intros m i len l Hm; simpl.
  - destruct (i <? len)%nat; reflexivity.
  - destruct (i <? len)%nat; [| reflexivity].
    destruct (inner_while_keeps (len - S i) m i (S i) len l Hm) as [H1 H2].
    destruct (LineDetector.inner_while (len - S i) m i (S i) len l)
      as [[len' | e] l']; simpl in *; subst l'; [| reflexivity].
    now apply IH.
Qed.

(** With a threshold that is not positive nothing is ever removed: the
    test [abs(...) < minLineDistance] cannot hold. *)
Theorem dedup_nonpositive_threshold (m : Z) (l : list LineObj) :
  m <= 0 -> snd (LineDetector.dedup m l) = l.
Proof. intros Hm. unfold LineDetector.dedup. now apply outer_while_keeps. Qed.

Lemma dedup_nonpositive_threshold_witness :
  snd (LineDetector.dedup 0 [Scenario.s0; Scenario.s2])
  = [Scenario.s0; Scenario.s2].
Proof.
  apply (dedup_nonpositive_threshold 0 [Scenario.s0; Scenario.s2]). lia.
Defined.

(** ** Classification *)

Lemma filterVerticals_In (C : LineClass) (lines : list (option LineObj))
    (l : LineObj) :
  In l (LineDetector.filterVerticals C lines)
  <-> In (Some l) lines /\ Line.isVertical C l = true.
Proof.
  induction lines as [| [x |] lines IH]; simpl.
  - tauto.
  - destruct (Line.isVertical C x) eqn:E; simpl; rewrite IH; split.
    + intros [-> | [H1 H2]]; auto.
    + intros [[H | H] H2]; [left; congruence | auto].
    + intros [H1 H2]; auto.
    + intros [[H | H] H2]; [injection H as ->; congruence | auto].
  - rewrite IH. split; [intros [H1 H2]; auto |].
    intros [[H | H] H2]; [discriminate | auto].
Qed.

Lemma filterHorizontals_In (C : LineClass) (lines : list (option LineObj))
    (l : LineObj) :
  In l (LineDetector.filterHorizontals C lines)
  <-> In (Some l) lines /\ Line.isHorizontal C l = true.
Proof.
  induction lines as [| [x |] lines IH]; simpl.
  - tauto.
  - destruct (Line.isHorizontal C x) eqn:E; simpl; rewrite IH; split.
    + intros [-> | [H1 H2]]; auto.
    + intros [[H | H] H2]; [left; congruence | auto].
    + intros [H1 H2]; auto.
    + intros [[H | H] H2]; [injection H as ->; congruence | auto].
  - rewrite IH. split; [intros [H1 H2]; auto |].
    intros [[H | H] H2]; [discriminate | auto].
Qed.

(** Under the tolerances 1 and 1 that [_eliminateRedundancies] sets, no
    candidate line is lost by the classification: each lands among the
    verticals or among the horizontals, and in both exactly when its
    slope is 1. *)
Theorem classification_covers (lines : list (option LineObj)) (l : LineObj) :
  In (Some l) lines ->
  (In l (LineDetector.filterVerticals (mkLineClass 1 1) lines)
   \/ In l (LineDetector.filterHorizontals (mkLineClass 1 1) lines))
  /\ (In l (LineDetector.filterVerticals (mkLineClass 1 1) lines)
      /\ In l (LineDetector.filterHorizontals (mkLineClass 1 1) lines)
      <-> (Line.slope l == 1)%Q).
Proof.
  intros Hin. rewrite filterVerticals_In, filterHorizontals_In.
  unfold Line.isVertical, Line.isHorizontal; cbn [verticalTolerance
    horizontalTolerance].
  rewrite !Qle_bool_iff. split.
  - destruct (Qlt_le_dec (Line.slope l) 1) as [H | H].
    + right. split; [exact Hin | now apply Qlt_le_weak].
    + left. split; [exact Hin | exact H].
  - split.
    + intros [[_ H1] [_ H2]]. now apply Qle_antisym.
    + intros H. rewrite H. repeat split; auto; apply Qle_refl.
Qed.

Lemma classification_covers_witness :
  In (Scenario.diag : LineObj)
     (LineDetector.filterVerticals (mkLineClass 1 1) [Some Scenario.diag])
  /\ In (Scenario.diag : LineObj)
       (LineDetector.filterHorizontals (mkLineClass 1 1) [Some Scenario.diag]).
Proof.
  apply (proj2 (classification_covers [Some Scenario.diag] Scenario.diag
                  (or_introl eq_refl))).
  reflexivity.
Defined.

(** ** The effect of a pass on the state *)

(** Whatever the candidates, [_eliminateRedundancies] returns or raises
    [ZeroDivisionError], nothing else: no index leaves its range while
    the lists shrink.  The lines it leaves in [self._verticals] and
    [self._horizontals] are the classified candidates with some items
    dropped; the thresholds and the stored corners are untouched; the
    tolerances are the previous ones after a return, and 1 and 1 after a
    raise. *)
Theorem eliminateRedundancies_effect (w : World)
    (lines : list (option LineObj)) :
  let r := LineDetector._eliminateRedundancies w lines in
  (fst r = Ok tt /\ LineC (snd r) = LineC w
   \/ fst r = Raise ZeroDivisionError /\ LineC (snd r) = mkLineClass 1 1)
  /\ Sublist (_verticals (self (snd r)))
       (LineDetector.filterVerticals (mkLineClass 1 1) lines)
  /\ Sublist (_horizontals (self (snd r)))
       (LineDetector.filterHorizontals (mkLineClass 1 1) lines)
  /\ minLineDistance (self (snd r)) = minLineDistance (self w)
  /\ minLength (self (snd r)) = minLength (self w)
  /\ squareCorners (self (snd r)) = squareCorners (self w).
Proof.
  unfold LineDetector._eliminateRedundancies.
  cbn [LineC set_tolerances set_verticals set_horizontals self _verticals
       _horizontals minLineDistance].
  set (vs := LineDetector.filterVerticals (mkLineClass 1 1) lines).
  set (hs := LineDetector.filterHorizontals (mkLineClass 1 1) lines).
  pose proof (dedup_outcome (minLineDistance (self w)) vs) as Ov.
  pose proof (proj1 (dedup_spec (minLineDistance (self w)) vs)) as Sv.
  pose proof (dedup_outcome (minLineDistance (self w)) hs) as Oh.
  pose proof (proj1 (dedup_spec (minLineDistance (self w)) hs)) as Sh.
  destruct (LineDetector.dedup (minLineDistance (self w)) vs)
    as [[[] | e] l1]; simpl in Ov, Sv.
  - cbn [LineC set_tolerances set_verticals set_horizontals self _verticals
         _horizontals minLineDistance].
    destruct (LineDetector.dedup (minLineDistance (self w)) hs)
      as [[[] | e] l2]; simpl in Oh, Sh.
    + destruct w as [[v h] d]; simpl. repeat split; auto.
    + destruct Oh as [Oh | Oh]; [| discriminate]. injection Oh as ->.
      destruct w as [[v h] d]; simpl. repeat split; auto.
  - destruct Ov as [Ov | Ov]; [| discriminate]. injection Ov as ->.
    destruct w as [[v h] d]; simpl. repeat split; auto.
    apply Sublist_refl.
Qed.

(** ** The extremes and the margin of 10 *)

Lemma xExtremes_step_shape p line :
  LineDetector.xExtremes_step p line = extremes_step start_x start_x p line.
Proof. destruct p as [[l |] [r |]]; reflexivity. Qed.

Lemma yExtremes_step_shape p line :
  LineDetector.yExtremes_step p line = extremes_step start_y start_x p line.
Proof. destruct p as [[l |] [r |]]; reflexivity. Qed.

Lemma fold_left_pointwise {A B : Type} (f g : A -> B -> A) (l : list B) :
  (forall a b, f a b = g a b) ->
  forall a, fold_left f l a = fold_left g l a.
Proof.
  intros H. induction l as [| b l IH]; intros a; simpl; [reflexivity |].
  now rewrite H, IH.
Qed.

Section Margin.

Variables key1 key2 : LineObj -> Z.
Variable qualifies : LineObj -> bool.

Lemma within_margin_skip seen p line :
  qualifies line = false ->
  within_margin qualifies key1 key2 seen p ->
  within_margin qualifies key1 key2 (seen ++ [line]) p.
Proof.
  intros Eq [H1 H2]. unfold within_margin.
  split; [destruct (fst p) as [c |] | destruct (snd p) as [c |]].
  - destruct H1 as (I & Q & B). split; [apply in_or_app; auto |].
    split; [exact Q |]. intros l Hl Hq. apply in_app_or in Hl.
    destruct Hl as [Hl | [<- | []]]; [now apply B | congruence].
  - intros l Hl. apply in_app_or in Hl.
    destruct Hl as [Hl | [<- | []]]; auto.
  - destruct H2 as (I & Q & B). split; [apply in_or_app; auto |].
    split; [exact Q |]. intros l Hl Hq. apply in_app_or in Hl.
    destruct Hl as [Hl | [<- | []]]; [now apply B | congruence].
  - intros l Hl. apply in_app_or in Hl.
    destruct Hl as [Hl | [<- | []]]; auto.
Qed.

Lemma within_margin_step seen p line :
  qualifies line = true ->
  within_margin qualifies key1 key2 seen p ->
  within_margin qualifies key1 key2 (seen ++ [line])
    (extremes_step key1 key2 p line).
Proof.
  intros Eq [H1 H2]. unfold within_margin, extremes_step. cbn [fst snd].
  assert (Hlast : In line (seen ++ [line]))
    by (apply in_or_app; right; left; reflexivity).
  split; [destruct (fst p) as [c |] | destruct (snd p) as [c |]].
  - destruct H1 as (I & Q & B).
    destruct (Z.ltb_spec (key1 line) (key1 c - 10)).
    + split; [exact Hlast |]. split; [exact Eq |].
      intros l Hl Hq. apply in_app_or in Hl.
      destruct Hl as [Hl | [<- | []]]; [| lia].
      specialize (B l Hl Hq). lia.
    + split; [apply in_or_app; auto |]. split; [exact Q |].
      intros l Hl Hq. apply in_app_or in Hl.
      destruct Hl as [Hl | [<- | []]]; [now apply B | lia].
  - split; [exact Hlast |]. split; [exact Eq |].
    intros l Hl Hq. apply in_app_or in Hl.
    destruct Hl as [Hl | [<- | []]]; [| lia].
    rewrite (H1 l Hl) in Hq. discriminate.
  - destruct H2 as (I & Q & B).
    destruct (Z.ltb_spec (key2 c + 10) (key2 line)).
    + split; [exact Hlast |]. split; [exact Eq |].
      intros l Hl Hq. apply in_app_or in Hl.
      destruct Hl as [Hl | [<- | []]]; [| lia].
      specialize (B l Hl Hq). lia.
    + split; [apply in_or_app; auto |]. split; [exact Q |].
      intros l Hl Hq. apply in_app_or in Hl.
      destruct Hl as [Hl | [<- | []]]; [now apply B | lia].
  - split; [exact Hlast |]. split; [exact Eq |].
    intros l Hl Hq. apply in_app_or in Hl.
    destruct Hl as [Hl | [<- | []]]; [| lia].
    rewrite (H2 l Hl) in Hq. discriminate.
Qed.

Lemma within_margin_fold (ls : list LineObj) :
  forall seen p,
    within_margin qualifies key1 key2 seen p ->
    within_margin qualifies key1 key2 (seen ++ ls)
      (fold_left
         (fun p line =>
            if qualifies line then extremes_step key1 key2 p line else p)
         ls p).
Proof.
  induction ls as [| line ls IH]; intros seen p Hp; simpl.
  - now rewrite app_nil_r.
  - replace (seen ++ line :: ls) with ((seen ++ [line]) ++ ls)
      by (now rewrite <- app_assoc).
    apply IH. destruct (qualifies line) eqn:Eq.
    + now apply within_margin_step.
    + now apply within_margin_skip.
Qed.

End Margin.

Lemma within_margin_start qualifies key1 key2 :
  within_margin qualifies key1 key2 [] (None, None).
Proof. split; simpl; intros l []. Qed.

(** [xExtremes] over line objects returns, when some line is vertical,
    two vertical lines of the list: a leftmost whose start-x no vertical
    line of the list undercuts by more than 10, and a rightmost whose
    start-x none exceeds by more than 10.  With no vertical line both
    are [None]. *)
Theorem xExtremes_within_margin (C : LineClass) (ls : list LineObj) :
  exists p,
    LineDetector.xExtremes C (map Some ls) = Ok p
    /\ match fst p with
       | Some leftmost =>
           In leftmost ls /\ Line.isVertical C leftmost = true
           /\ forall l : LineObj, In l ls -> Line.isVertical C l = true ->
                start_x leftmost - 10 <= start_x l
       | None => forall l : LineObj, In l ls -> Line.isVertical C l = false
       end
    /\ match snd p with
       | Some rightmost =>
           In rightmost ls /\ Line.isVertical C rightmost = true
           /\ forall l : LineObj, In l ls -> Line.isVertical C l = true ->
                start_x l <= start_x rightmost + 10
       | None => forall l : LineObj, In l ls -> Line.isVertical C l = false
       end.
Proof.
  unfold LineDetector.xExtremes. rewrite xExtremes_from_objects.
  eexists. split; [reflexivity |].
  pose proof (within_margin_fold start_x start_x
                (fun l : LineObj => Line.isVertical C l) ls [] (None, None)
                (within_margin_start _ _ _)) as H.
  simpl app in H.
  erewrite fold_left_pointwise; [exact H |].
  intros p line. cbv beta. now rewrite xExtremes_step_shape.
Qed.

(** [yExtremes] selects its topmost line by the start-y, within the
    margin of 10, but its bottommost line by the start-x: the bottommost
    is a horizontal line whose start-x no horizontal line of the list
    exceeds by more than 10. *)
Theorem yExtremes_within_margin (C : LineClass) (ls : list LineObj) :
  exists p,
    LineDetector.yExtremes C (map Some ls) = Ok p
    /\ match fst p with
       | Some topmost =>
           In topmost ls /\ Line.isHorizontal C topmost = true
           /\ forall l : LineObj, In l ls -> Line.isHorizontal C l = true ->
                start_y topmost - 10 <= start_y l
       | None => forall l : LineObj, In l ls -> Line.isHorizontal C l = false
       end
    /\ match snd p with
       | Some bottommost =>
           In bottommost ls /\ Line.isHorizontal C bottommost = true
           /\ forall l : LineObj, In l ls -> Line.isHorizontal C l = true ->
                start_x l <= start_x bottommost + 10
       | None => forall l : LineObj, In l ls -> Line.isHorizontal C l = false
       end.
Proof.
  unfold LineDetector.yExtremes. rewrite yExtremes_from_objects.
  eexists. split; [reflexivity |].
  pose proof (within_margin_fold start_y start_x
                (fun l : LineObj => Line.isHorizontal C l) ls [] (None, None)
                (within_margin_start _ _ _)) as H.
  simpl app in H.
  erewrite fold_left_pointwise; [exact H |].
  intros p line. cbv beta. now rewrite yExtremes_step_shape.
Qed.

(** ** [None] items and the filtering chain *)

Lemma xExtremes_from_None (C : LineClass) (ls : list (option LineObj)) :
  In None ls ->
  forall p, LineDetector.xExtremes_from C p ls = Raise AttributeError.
Proof.
  induction ls as [| [x |] ls IH]; simpl; intros Hin p.
  - contradiction.
  - destruct Hin as [H | H]; [discriminate | now apply IH].
  - reflexivity.
Qed.

Lemma yExtremes_from_None (C : LineClass) (ls : list (option LineObj)) :
  In None ls ->
  forall p, LineDetector.yExtremes_from C p ls = Raise AttributeError.
Proof.
  induction ls as [| [x |] ls IH]; simpl; intros Hin p.
  - contradiction.
  - destruct Hin as [H | H]; [discriminate | now apply IH].
  - reflexivity.
Qed.

Lemma without_None (ls : list (option LineObj)) :
  ~ In None ls -> exists objs : list LineObj, ls = map Some objs.
Proof.
  induction ls as [| [x |] ls IH]; simpl; intros H.
  - exists []; reflexivity.
  - destruct IH as [objs ->]; [tauto |]. exists (x :: objs); reflexivity.
  - exfalso; auto.
Qed.

(** [xExtremes] and [yExtremes] call a method on every item: a list
    with a [None] item makes them raise [AttributeError], a list without
    one never does.  [xExtremes] itself returns [None] items when no line
    qualifies, so its result cannot always be fed to it again. *)
Theorem extremes_raise_iff_None (C : LineClass)
    (ls : list (option LineObj)) :
  (In None ls ->
   LineDetector.xExtremes C ls = Raise AttributeError
   /\ LineDetector.yExtremes C ls = Raise AttributeError)
  /\ (~ In None ls ->
      exists p q, LineDetector.xExtremes C ls = Ok p
                  /\ LineDetector.yExtremes C ls = Ok q).
Proof.
  split.
  - intros H. split;
      [now apply xExtremes_from_None | now apply yExtremes_from_None].
  - intros H. destruct (without_None ls H) as [objs ->].
    unfold LineDetector.xExtremes, LineDetector.yExtremes.
    rewrite xExtremes_from_objects, yExtremes_from_objects.
    do 2 eexists; split; reflexivity.
Qed.

Lemma extremes_raise_iff_None_witness :
  LineDetector.xExtremes LineClass_initial [Some Scenario.v10; None]
  = Raise AttributeError
  /\ exists p, LineDetector.xExtremes LineClass_initial [Some Scenario.v10]
               = Ok p.
Proof.
  split.
  - apply (proj1 (extremes_raise_iff_None LineClass_initial
                    [Some Scenario.v10; None])).
    right; left; reflexivity.
  - destruct (proj2 (extremes_raise_iff_None LineClass_initial
                       [Some Scenario.v10])) as (p & q & Hp & _).
    + intros [H | []]; discriminate.
    + exists p. exact Hp.
Defined.






(** ** The verdict of [run] *)

Lemma intersect_shape (a b : Line) :
  (exists p, Line.intersect a b = (true, Some p))
  \/ Line.intersect a b = (false, None).
Proof.
  unfold Line.intersect. destruct (Qtruthy _); [left; eexists |]; auto.
Qed.

Lemma corners_loop_bounds (v0 v1 h0 h1 : LineObj) :
  let r := SquareDetector.corners_loop [v0; v1] [h0; h1] (true, []) in
  (List.length (snd r) <= 4)%nat
  /\ (fst r = true -> (1 <= List.length (snd r))%nat).
Proof.
  unfold SquareDetector.corners_loop, SquareDetector.corners_inner.
  cbn [fold_left].
  destruct (intersect_shape v0 h0) as [[p00 ->] | ->];
    destruct (intersect_shape v0 h1) as [[p01 ->] | ->];
    destruct (intersect_shape v1 h0) as [[p10 ->] | ->];
    destruct (intersect_shape v1 h1) as [[p11 ->] | ->];
    cbn [fst snd app List.length];
    (split; [lia |]); intros; try discriminate; lia.
Qed.



(** [run] returns a verdict or raises [ZeroDivisionError], nothing else.
    When it returns, the tolerances are the ones in effect before, the
    corners it returns are the ones the detector now holds, and a true
    flag comes with one to four corners, not necessarily four. *)
Theorem run_effect (w : World) (lines : list (option LineObj)) :
  let r := SquareDetector.run w lines in
  fst r = Raise ZeroDivisionError
  \/ exists (success : bool) (corners : list Point),
      fst r = Ok (success, corners)
      /\ squareCorners (self (snd r)) = corners
      /\ LineC (snd r) = LineC w
      /\ (success = true -> (1 <= List.length corners <= 4)%nat).
Proof.
  unfold SquareDetector.run.
  pose proof (eliminateRedundancies_outcome w lines) as Ho.
  pose proof (eliminateRedundancies_restores_on_return w lines) as Hr.
  destruct (LineDetector._eliminateRedundancies w lines) as [[[] | e] w'];
    simpl in Ho, Hr.
  - specialize (Hr eq_refl). right.
    unfold LineDetector.xExtremes, LineDetector.yExtremes.
    rewrite xExtremes_from_objects, yExtremes_from_objects.
    match goal with
    | |- context [SquareDetector.Found ?v ?h] =>
        destruct v as [[v0 |] [v1 |]]; destruct h as [[h0 |] [h1 |]];
        cbn [SquareDetector.Found SquareDetector.is_Some fst snd andb]
    end;
      try (exists false, (squareCorners (self w')); cbn [fst snd];
           repeat split; auto; discriminate).
    destruct (corners_loop_bounds v0 v1 h0 h1) as (H4 & H1).
    destruct (SquareDetector.corners_loop _ _ _) as [success corners].
    cbn [fst snd] in *.
    exists success, corners. destruct w' as [C d]; cbn in *.
    repeat split; auto; try (apply H1; assumption).
  - left. destruct Ho as [Ho | Ho]; [| discriminate].
    injection Ho as ->. reflexivity.
Qed.

Lemma run_effect_witness :
  exists corners : list Point,
    fst (SquareDetector.run Scenario.fresh
           (map Some [Scenario.v10; Scenario.h10; Scenario.h90]))
    = Ok (true, corners)
    /\ (1 <= List.length corners <= 4)%nat.
Proof.
  pose proof (run_effect Scenario.fresh
                (map Some [Scenario.v10; Scenario.h10; Scenario.h90])) as H.
  cbv zeta in H.
  assert (E : fst (SquareDetector.run Scenario.fresh
                     (map Some [Scenario.v10; Scenario.h10; Scenario.h90]))
              = Ok (true, [(0, 10); (0, 10); (0, 10); (0, 10)]))
    by (evaluate_pass; reflexivity).
  rewrite E in H. destruct H as [H | (s & c & H & _ & _ & Hc)];
    [discriminate |].
  injection H as <- <-. eexists. split; [exact E |].
  apply Hc. reflexivity.
Defined.

Lemma xExtremes_within_margin_witness :
  exists p,
    LineDetector.xExtremes LineClass_initial
      (map Some [Scenario.v90; Scenario.h10; Scenario.v10]) = Ok p
    /\ match fst p with
       | Some leftmost => start_x leftmost - 10 <= start_x Scenario.v10
       | None => False
       end.
Proof.
  destruct (xExtremes_within_margin LineClass_initial
              [Scenario.v90; Scenario.h10; Scenario.v10]) as (p & Hp & Hl & _).
  exists p. split; [exact Hp |].
  destruct (fst p) as [leftmost |].
  - destruct Hl as (_ & _ & Hb). apply Hb; [| reflexivity].
    right; right; left; reflexivity.
  - specialize (Hl Scenario.v10 (or_intror (or_intror (or_introl eq_refl)))).
    discriminate.
Defined.

Lemma yExtremes_within_margin_witness :
  exists p,
    LineDetector.yExtremes LineClass_initial
      (map Some [Scenario.h200; Scenario.v10; Scenario.h300]) = Ok p
    /\ match snd p with
       | Some bottommost => start_x Scenario.h300 <= start_x bottommost + 10
       | None => False
       end.
Proof.
  destruct (yExtremes_within_margin LineClass_initial
              [Scenario.h200; Scenario.v10; Scenario.h300])
    as (p & Hp & _ & Hb).
  exists p. split; [exact Hp |].
  destruct (snd p) as [bottommost |].
  - destruct Hb as (_ & _ & Hb). apply Hb; [| reflexivity].
    right; right; left; reflexivity.
  - specialize (Hb Scenario.h300 (or_intror (or_intror (or_introl eq_refl)))).
    discriminate.
Defined.

(** ** Direction of a segment *)

(** The slope, and with it the classification as vertical or horizontal
    under any tolerances, does not depend on the order of the two
    endpoints. *)
Theorem classification_ignores_direction (C : LineClass) (l : Line) :
  (Line.slope (reversed l) == Line.slope l)%Q
  /\ Line.isVertical C (reversed l) = Line.isVertical C l
  /\ Line.isHorizontal C (reversed l) = Line.isHorizontal C l.
Proof.
  assert (Hs : (Line.slope (reversed l) == Line.slope l)%Q).
  { destruct l as [[x1 y1] [x2 y2] ar].
    unfold Line.slope, reversed; cbn [pts0 pts1].
    destruct (Z.eqb_spec (x2 - x1) 0) as [E | E];
      destruct (Z.eqb_spec (x1 - x2) 0) as [E' | E']; try lia;
      [reflexivity |].
    unfold Qeq, Qdiv, Qmult, Qinv, inject_Z; simpl.
    destruct (x2 - x1) eqn:Ed; destruct (x1 - x2) eqn:Ed'; simpl; nia. }
  split; [exact Hs |].
  unfold Line.isVertical, Line.isHorizontal.
  split; apply eq_true_iff_eq; rewrite !Qle_bool_iff; now rewrite Hs.
Qed.
